(** * jira-tui: the orchestration layer of [src/jira_tui/app.py]

    A shallow embedding of the Textual application that wraps [jira-cli]:
    the Python string operations the code relies on ([str.strip],
    [str.splitlines], [str.join], [bytes.decode]), the widgets as explicit
    state, the command runner [_run_jira_command], the configuration probe
    [check_configuration], the input dialog and the prompt-driven actions. *)

From Stdlib Require Import List ZArith NArith Bool Lia.
From Stdlib.Strings Require Import String Ascii Byte.
From Stdlib Require Import DecimalString.
Import ListNotations.

(** ** Python text *)

Module Py.

(** A Python [str] is a sequence of Unicode code points. *)
Definition char := N.
Definition str := list char.

Definition in_range (lo hi c : N) : bool := (lo <=? c)%N && (c <=? hi)%N.

(** [str.isspace] on one character: the code points CPython's
    [Py_UNICODE_ISSPACE] accepts. *)
Definition isspace (c : char) : bool :=
  in_range 9 13 c || in_range 28 32 c || (c =? 133)%N || (c =? 160)%N
  || (c =? 5760)%N || in_range 8192 8202 c || in_range 8232 8233 c
  || (c =? 8239)%N || (c =? 8287)%N || (c =? 12288)%N.

(** Line boundaries of [str.splitlines]: LF, VT, FF, CR, FS, GS, RS, NEL,
    LINE SEPARATOR and PARAGRAPH SEPARATOR. *)
Definition islinebreak (c : char) : bool :=
  in_range 10 13 c || in_range 28 30 c || (c =? 133)%N || in_range 8232 8233 c.

Fixpoint lstrip (s : str) : str :=
  match s with
  | [] => []
  | c :: rest => if isspace c then lstrip rest else s
  end.

Definition rstrip (s : str) : str := rev (lstrip (rev s)).

(** [s.strip()] with no argument. *)
Definition strip (s : str) : str := rstrip (lstrip s).

(** [s.splitlines()]: [cur] holds the current line, most recent character
    first. A CR immediately followed by LF is one boundary, and a boundary at
    the very end opens no further line. *)
Fixpoint splitlines_from (cur : str) (s : str) : list str :=
  match s with
  | [] => match cur with [] => [] | _ :: _ => [rev cur] end
  | c :: rest =>
      if islinebreak c then
        rev cur ::
          (if (c =? 13)%N then
             match rest with
             | d :: rest' =>
                 if (d =? 10)%N then splitlines_from [] rest'
                 else splitlines_from [] rest
             | [] => splitlines_from [] rest
             end
           else splitlines_from [] rest)
      else splitlines_from (c :: cur) rest
  end.

Definition splitlines (s : str) : list str := splitlines_from [] s.

(** [sep.join(parts)]. *)
Fixpoint join (sep : str) (parts : list str) : str :=
  match parts with
  | [] => []
  | [p] => p
  | p :: more => p ++ sep ++ join sep more
  end.

(** Truth value of a [str]: non-empty. *)
Definition truthy (s : str) : bool :=
  match s with [] => false | _ :: _ => true end.

(** Truth value of a [str | None]. *)
Definition truthy_opt (o : option str) : bool :=
  match o with Some s => truthy s | None => false end.

(** ** Bytes and UTF-8 *)

Definition bytes := list byte.

Definition is_cont (x : N) : bool := in_range 128 191 x.

(** [bytes.decode()] with the default codec and error handler: strict UTF-8.
    [None] stands for [UnicodeDecodeError]. Over-long forms, surrogates and
    values above U+10FFFF are rejected, as in CPython. *)
Fixpoint decode_N (bs : list N) : option str :=
  match bs with
  | [] => Some []
  | b0 :: r0 =>
      if (b0 <? 128)%N then option_map (cons b0) (decode_N r0)
      else if in_range 194 223 b0 then
        match r0 with
        | b1 :: r1 =>
            if is_cont b1
            then option_map (cons ((b0 - 192) * 64 + (b1 - 128))%N) (decode_N r1)
            else None
        | _ => None
        end
      else if in_range 224 239 b0 then
        match r0 with
        | b1 :: b2 :: r2 =>
            let lo := if (b0 =? 224)%N then 160%N else 128%N in
            let hi := if (b0 =? 237)%N then 159%N else 191%N in
            if in_range lo hi b1 && is_cont b2
            then option_map
                   (cons ((b0 - 224) * 4096 + (b1 - 128) * 64 + (b2 - 128))%N)
                   (decode_N r2)
            else None
        | _ => None
        end
      else if in_range 240 244 b0 then
        match r0 with
        | b1 :: b2 :: b3 :: r3 =>
            let lo := if (b0 =? 240)%N then 144%N else 128%N in
            let hi := if (b0 =? 244)%N then 143%N else 191%N in
            if in_range lo hi b1 && is_cont b2 && is_cont b3
            then option_map
                   (cons ((b0 - 240) * 262144 + (b1 - 128) * 4096
                          + (b2 - 128) * 64 + (b3 - 128))%N)
                   (decode_N r3)
            else None
        | _ => None
        end
      else None
  end.

Definition decode (bs : bytes) : option str := decode_N (map Byte.to_N bs).

(** Byte string literal, [b"..."]. *)
Definition bytes_lit (s : string) : bytes := list_byte_of_string s.

(** Text literal: the source file is UTF-8, so a literal denotes the code
    points its bytes decode to. *)
Definition lit (s : string) : str :=
  match decode (bytes_lit s) with Some t => t | None => [] end.

(** [str(n)] for an [int], as [format] and f-strings render it. *)
Definition str_of_int (n : Z) : str :=
  map N_of_ascii (list_ascii_of_string (NilZero.string_of_int (Z.to_int n))).

End Py.

Import Py.


(** ** Widgets, operating system and user *)

(** The two [IssuePanel] instances the application composes; a
    [stdout_target] is a reference to one of them. *)
Inductive PanelId := IssueListPanel | IssueDetailPanel.

(** Public methods of [IssuePanel]. *)
Inductive PanelCall :=
| ShowMessage (message : str)
| ShowError (message : str)
| DisplayOutput (output : str).

(** Calls that leave the application object, in the order they happen. *)
Inductive Event :=
| EvLogWrite (line : str)
| EvPanel (p : PanelId) (c : PanelCall)
| EvStatus (s : str)
| EvConfigured (v : bool)
| EvExec (cmd : list str) (captured : bool)
| EvPrompt (title prompt placeholder : str).

(** The widgets' state: the lines written to the activity [Log], the lines
    held by each panel, [StatusWidget.status], the [configured] reactive, and
    the chronological record of calls. *)
Record World := mkWorld {
  log_lines : list str;
  issue_list : list str;
  issue_detail : list str;
  status : str;
  configured : bool;
  events : list Event
}.

(** What [asyncio.create_subprocess_exec] followed by [communicate] (or
    [wait]) yields: the executable is missing, or the process ran and left
    two byte strings and a return code. *)
Inductive Spawned :=
| NotFound
| Exited (stdout_bytes stderr_bytes : bytes) (returncode : Z).

(** How the user leaves an [InputDialog]: the Cancel button, the Submit
    button with the input's value, or Enter inside the input. *)
Inductive Gesture :=
| PressCancel
| PressSubmit (value : str)
| PressEnter (value : str).

(** The environment answers the n-th process launch and the n-th dialog. *)
Record Env := mkEnv {
  os : nat -> list str -> Spawned;
  user : nat -> Gesture
}.

Record Process := mkProcess {
  proc_stdout : bytes;
  proc_stderr : bytes;
  proc_returncode : Z
}.

(** [CommandResult] dataclass. *)
Record CommandResult := mkCommandResult {
  command : list str;
  stdout : str;
  stderr : str;
  returncode : Z
}.

Definition ok (r : CommandResult) : bool := (returncode r =? 0)%Z.

(** ** Exceptions and state *)

Inductive Exn := FileNotFoundError | UnicodeDecodeError.

Inductive Res (A : Type) :=
| Return (a : A)
| Raise (e : Exn).
Arguments Return {A} a.
Arguments Raise {A} e.

Definition M (A : Type) : Type := World -> Res A * World.

Definition ret {A} (a : A) : M A := fun w => (Return a, w).

Definition bind {A B} (m : M A) (k : A -> M B) : M B :=
  fun w => match m w with
           | (Return a, w') => k a w'
           | (Raise e, w') => (Raise e, w')
           end.

Definition raise {A} (e : Exn) : M A := fun w => (Raise e, w).

(** [try: body  except FileNotFoundError: handler]. *)
Definition try_except_FileNotFoundError {A} (body handler : M A) : M A :=
  fun w => match body w with
           | (Raise FileNotFoundError, w') => handler w'
           | r => r
           end.

Declare Scope py_scope.
Delimit Scope py_scope with py.
Notation "x <- m ;; k" := (bind m (fun x => k))
  (at level 61, m at next level, right associativity) : py_scope.
Notation "m ;; k" := (bind m (fun _ => k))
  (at level 61, right associativity) : py_scope.
Open Scope py_scope.

(** [for x in xs: body x]. *)
Fixpoint for_each {A} (xs : list A) (body : A -> M unit) : M unit :=
  match xs with
  | [] => ret tt
  | x :: more => body x ;; for_each more body
  end.

Definition emit (e : Event) : M unit :=
  fun w => (Return tt,
            mkWorld (log_lines w) (issue_list w) (issue_detail w)
                    (status w) (configured w) (events w ++ [e])).

(** *** The activity log: [Log.write] *)

Definition log_widget_write (line : str) : M unit :=
  fun w => (Return tt,
            mkWorld (log_lines w ++ [line]) (issue_list w) (issue_detail w)
                    (status w) (configured w) (events w ++ [EvLogWrite line])).

(** *** Panels: [Log.clear], [Log.write] on an [IssuePanel] *)

Definition panel_lines (p : PanelId) (w : World) : list str :=
  match p with
  | IssueListPanel => issue_list w
  | IssueDetailPanel => issue_detail w
  end.

Definition set_panel (p : PanelId) (f : list str -> list str) : M unit :=
  fun w => (Return tt,
            match p with
            | IssueListPanel =>
                mkWorld (log_lines w) (f (issue_list w)) (issue_detail w)
                        (status w) (configured w) (events w)
            | IssueDetailPanel =>
                mkWorld (log_lines w) (issue_list w) (f (issue_detail w))
                        (status w) (configured w) (events w)
            end).

Definition panel_clear (p : PanelId) : M unit := set_panel p (fun _ => []).
Definition panel_write (p : PanelId) (line : str) : M unit :=
  set_panel p (fun ls => ls ++ [line]).

(** *** Reactive attributes *)

Definition set_status (s : str) : M unit :=
  fun w => (Return tt,
            mkWorld (log_lines w) (issue_list w) (issue_detail w)
                    s (configured w) (events w ++ [EvStatus s])).

Definition set_configured (v : bool) : M unit :=
  fun w => (Return tt,
            mkWorld (log_lines w) (issue_list w) (issue_detail w)
                    (status w) v (events w ++ [EvConfigured v])).

(** ** The application *)

Definition count_execs (evs : list Event) : nat :=
  List.length (filter (fun e => match e with EvExec _ _ => true | _ => false end) evs).

Definition count_prompts (evs : list Event) : nat :=
  List.length (filter (fun e => match e with EvPrompt _ _ _ => true | _ => false end) evs).

(** *** [IssuePanel] *)

(** [ls or alt] on lists and [s or alt] on texts: the left operand unless
    it is empty. *)
Definition or_lines (ls alt : list str) : list str :=
  match ls with [] => alt | _ :: _ => ls end.

Definition or_str (s alt : str) : str :=
  match s with [] => alt | _ :: _ => s end.

Definition show_message (p : PanelId) (message : str) : M unit :=
  emit (EvPanel p (ShowMessage message)) ;;
  panel_clear p ;;
  for_each (or_lines (splitlines message) [[]]) (panel_write p).

Definition show_error (p : PanelId) (message : str) : M unit :=
  emit (EvPanel p (ShowError message)) ;;
  show_message p (lit "Error: " ++ message).

Definition display_output (p : PanelId) (output : str) : M unit :=
  emit (EvPanel p (DisplayOutput output)) ;;
  let text := or_str (strip output) (lit "No data returned.") in
  show_message p text.

(** *** [InputDialog] *)

(** The value the dialog is dismissed with: [_cancel], [_submit] and
    [_submit_enter]. *)
Definition InputDialog_result (g : Gesture) : option str :=
  match g with
  | PressCancel => None
  | PressSubmit value =>
      let value := strip value in
      if truthy value then Some value else None
  | PressEnter value =>
      if truthy (strip value) then Some (strip value) else None
  end.

Section App.

Variable E : Env.

(** [asyncio.create_subprocess_exec] on [cmd] and the wait for the
    process to end. *)
Definition create_subprocess_exec (cmd : list str) (captured : bool) : M Process :=
  fun w =>
    let n := count_execs (events w) in
    match emit (EvExec cmd captured) w with
    | (_, w') =>
        match os E n cmd with
        | NotFound => (Raise FileNotFoundError, w')
        | Exited o e rc => (Return (mkProcess o e rc), w')
        end
    end.

Definition bytes_decode (bs : bytes) : M str :=
  match decode bs with
  | Some s => ret s
  | None => raise UnicodeDecodeError
  end.

Definition _log (message : str) : M unit :=
  for_each (splitlines message) log_widget_write.

Definition _handle_command_failure
    (result : CommandResult) (stdout_target : option PanelId) : M unit :=
  let message :=
    lit "Command '" ++ join (lit " ") (command result)
      ++ lit "' exited with code " ++ str_of_int (returncode result) in
  _log message ;;
  match stdout_target with
  | Some p => show_error p message
  | None => ret tt
  end.

Definition _handle_missing_binary (stdout_target : option PanelId) : M unit :=
  let message :=
    lit "Unable to execute `jira`. Ensure jira-cli is installed and on PATH." in
  _log message ;;
  match stdout_target with
  | Some p => show_error p message
  | None => ret tt
  end.

Definition _run_jira_command
    (args : list str) (capture_output log_command : bool)
    (stdout_target : option PanelId) : M CommandResult :=
  let cmd := lit "jira" :: args in
  (if log_command then _log (lit "$ " ++ join (lit " ") cmd) else ret tt) ;;
  if capture_output then
    process <- try_except_FileNotFoundError
                 (create_subprocess_exec cmd true)
                 (_handle_missing_binary stdout_target ;;
                  raise FileNotFoundError) ;;
    stdout <- bytes_decode (proc_stdout process) ;;
    let stdout := strip stdout in
    stderr <- bytes_decode (proc_stderr process) ;;
    let stderr := strip stderr in
    (if truthy stdout then
       match stdout_target with
       | Some p => display_output p stdout
       | None => _log stdout
       end
     else ret tt) ;;
    (if truthy stderr then _log stderr else ret tt) ;;
    let result := mkCommandResult cmd stdout stderr (proc_returncode process) in
    (if negb (ok result) then _handle_command_failure result stdout_target
     else ret tt) ;;
    ret result
  else
    process <- try_except_FileNotFoundError
                 (create_subprocess_exec cmd false)
                 (_handle_missing_binary stdout_target ;;
                  raise FileNotFoundError) ;;
    let result := mkCommandResult cmd [] [] (proc_returncode process) in
    (if negb (ok result) then _handle_command_failure result stdout_target
     else ret tt) ;;
    ret result.

(** [check_configuration]: the [try] covers only the probe; the [return] in
    the handler ends the method. *)
Definition check_configuration : M unit :=
  set_status (lit "Checking jira-cli configuration…") ;;
  probe <- try_except_FileNotFoundError
             (result <- _run_jira_command [lit "me"] true true None ;;
              ret (Some result))
             (set_configured false ;;
              set_status (lit "jira-cli (jira) is not installed or in PATH.") ;;
              _log (lit "Unable to find `jira` binary. Install https://github.com/ankitpokhrel/jira-cli") ;;
              ret None) ;;
  match probe with
  | None => ret tt
  | Some result =>
      if (returncode result =? 0)%Z then
        set_configured true ;;
        set_status (lit "jira-cli is authenticated ✅") ;;
        (if truthy (stdout result) then _log (stdout result) else ret tt)
      else
        set_configured false ;;
        set_status (lit "jira-cli configuration missing. Press 'g' to run jira init.") ;;
        (if truthy (stderr result) then _log (stderr result) else ret tt)
  end.

(** [_prompt]: opens an [InputDialog], whose constructor keeps
    [placeholder or ""], and waits for its result. *)
Definition _prompt (title prompt : str) (placeholder : option str)
  : M (option str) :=
  fun w =>
    let n := count_prompts (events w) in
    let placeholder := match placeholder with
                       | Some text => or_str text []
                       | None => []
                       end in
    match emit (EvPrompt title prompt placeholder) w with
    | (_, w') => (Return (InputDialog_result (user E n)), w')
    end.

(** [try: await self._run_jira_command(...)  except FileNotFoundError: return],
    where [None] is the early return. *)
Definition run_or_return (run : M CommandResult) : M (option CommandResult) :=
  try_except_FileNotFoundError (result <- run ;; ret (Some result)) (ret None).

Definition action_search : M unit :=
  query <- _prompt (lit "JQL Search") (lit "Enter a JQL query")
             (Some (lit "project = KEY ORDER BY updated DESC")) ;;
  match query with
  | Some ((_ :: _) as query) =>
      run_or_return
        (_run_jira_command
           [lit "issue"; lit "list"; lit "--jql"; query; lit "--plain"]
           true true None) ;;
      ret tt
  | _ => ret tt
  end.

Definition action_my_issues : M unit :=
  let panel := IssueListPanel in
  show_message panel (lit "Loading issues assigned to you…") ;;
  r <- run_or_return
         (_run_jira_command
            [lit "issue"; lit "list"; lit "--assignee"; lit "me";
             lit "--order-by"; lit "updated"; lit "--reverse"; lit "--plain"]
            true true (Some panel)) ;;
  match r with
  | None => ret tt
  | Some result =>
      if ok result && negb (truthy (stdout result))
      then show_message panel (lit "No issues assigned to you.")
      else ret tt
  end.

Definition action_view_issue : M unit :=
  key <- _prompt (lit "View Issue") (lit "Enter issue key") (Some (lit "ABC-123")) ;;
  match key with
  | Some ((_ :: _) as key) =>
      let panel := IssueDetailPanel in
      show_message panel (lit "Loading issue " ++ key ++ lit "…") ;;
      run_or_return
        (_run_jira_command [lit "issue"; lit "view"; key; lit "--plain"]
           true true (Some panel)) ;;
      ret tt
  | _ => ret tt
  end.

Definition action_comment_issue : M unit :=
  key <- _prompt (lit "Add Comment") (lit "Issue key") (Some (lit "ABC-123")) ;;
  match key with
  | Some ((_ :: _) as key) =>
      comment <- _prompt (lit "Add Comment") (lit "Comment body") None ;;
      match comment with
      | Some ((_ :: _) as comment) =>
          r <- run_or_return
                 (_run_jira_command
                    [lit "issue"; lit "comment"; lit "add"; key;
                     lit "--comment"; comment]
                    true true None) ;;
          match r with
          | None => ret tt
          | Some result =>
              if ok result
              then _log (lit "Comment added to " ++ key ++ lit ".")
              else ret tt
          end
      | _ => ret tt
      end
  | _ => ret tt
  end.

Definition action_transition_issue : M unit :=
  key <- _prompt (lit "Transition Issue") (lit "Issue key") (Some (lit "ABC-123")) ;;
  match key with
  | Some ((_ :: _) as key) =>
      state <- _prompt (lit "Transition Issue") (lit "Target state")
                 (Some (lit "In Progress")) ;;
      match state with
      | Some ((_ :: _) as state) =>
          r <- run_or_return
                 (_run_jira_command
                    [lit "issue"; lit "transition"; key; lit "--state"; state]
                    true true None) ;;
          match r with
          | None => ret tt
          | Some result =>
              if ok result
              then _log (lit "Transitioned " ++ key ++ lit " to " ++ state ++ lit ".")
              else ret tt
          end
      | _ => ret tt
      end
  | _ => ret tt
  end.

End App.

(** ** Effects as world updates

    Closed forms of what the widget operations do to a [World]; the lemmas
    below relate them to the operations themselves. *)

Definition recorded (evs : list Event) (w : World) : World :=
  mkWorld (log_lines w) (issue_list w) (issue_detail w)
          (status w) (configured w) (events w ++ evs).

Definition logged (ls : list str) (w : World) : World :=
  mkWorld (log_lines w ++ ls) (issue_list w) (issue_detail w)
          (status w) (configured w) (events w ++ map EvLogWrite ls).

Definition with_panel (p : PanelId) (ls : list str) (w : World) : World :=
  match p with
  | IssueListPanel =>
      mkWorld (log_lines w) ls (issue_detail w)
              (status w) (configured w) (events w)
  | IssueDetailPanel =>
      mkWorld (log_lines w) (issue_list w) ls
              (status w) (configured w) (events w)
  end.

Definition shown (p : PanelId) (message : str) (w : World) : World :=
  with_panel p (or_lines (splitlines message) [[]])
             (recorded [EvPanel p (ShowMessage message)] w).

Definition errored (p : PanelId) (message : str) (w : World) : World :=
  shown p (lit "Error: " ++ message) (recorded [EvPanel p (ShowError message)] w).

Definition displayed (p : PanelId) (output : str) (w : World) : World :=
  shown p (or_str (strip output) (lit "No data returned."))
        (recorded [EvPanel p (DisplayOutput output)] w).

(** The text [_handle_command_failure] formats. *)
Definition failure_message (cmd : list str) (code : Z) : str :=
  lit "Command '" ++ join (lit " ") cmd
    ++ lit "' exited with code " ++ str_of_int code.

(** The text [_handle_missing_binary] reports. *)
Definition missing_binary_message : str :=
  lit "Unable to execute `jira`. Ensure jira-cli is installed and on PATH.".

(** The line [_run_jira_command] echoes when [log_command] is set. *)
Definition echo_line (cmd : list str) : str := lit "$ " ++ join (lit " ") cmd.

Definition reported (message : str) (target : option PanelId) (w : World) : World :=
  match target with
  | Some p => errored p message (logged (splitlines message) w)
  | None => logged (splitlines message) w
  end.

(** The world a captured run leaves behind once the process has ended with
    trimmed texts [so], [se] and return code [rc]. *)
Definition after_captured_run
    (cmd : list str) (log_command : bool) (target : option PanelId)
    (so se : str) (rc : Z) (w : World) : World :=
  let w1 := if log_command then logged (splitlines (echo_line cmd)) w else w in
  let w2 := recorded [EvExec cmd true] w1 in
  let w3 := if truthy so
            then match target with
                 | Some p => displayed p so w2
                 | None => logged (splitlines so) w2
                 end
            else w2 in
  let w4 := if truthy se then logged (splitlines se) w3 else w3 in
  if (rc =? 0)%Z then w4 else reported (failure_message cmd rc) target w4.

(** The world a run leaves behind when the executable is missing. *)
Definition after_missing_binary
    (cmd : list str) (captured log_command : bool) (target : option PanelId)
    (w : World) : World :=
  let w1 := if log_command then logged (splitlines (echo_line cmd)) w else w in
  reported missing_binary_message target (recorded [EvExec cmd captured] w1).

(** What is left of [lstrip] is empty or starts with a non-space. *)
Definition starts_clean (s : str) : Prop :=
  match s with [] => True | c :: _ => isspace c = false end.

Definition with_status (s : str) (w : World) : World :=
  mkWorld (log_lines w) (issue_list w) (issue_detail w)
          s (configured w) (events w ++ [EvStatus s]).

Definition with_configured (v : bool) (w : World) : World :=
  mkWorld (log_lines w) (issue_list w) (issue_detail w)
          (status w) v (events w ++ [EvConfigured v]).

(** [t] is [s] without its leading and trailing whitespace. *)
Definition trimmed_of (s t : str) : Prop :=
  exists pre post,
    s = pre ++ t ++ post
    /\ forallb isspace pre = true /\ forallb isspace post = true
    /\ starts_clean t /\ starts_clean (rev t).

(** [s] holds no line boundary of [splitlines]. *)
Definition no_break (s : str) : bool := negb (existsb islinebreak s).

(** The status texts of [check_configuration]. *)
Definition status_checking : str := lit "Checking jira-cli configuration…".
Definition status_not_installed : str :=
  lit "jira-cli (jira) is not installed or in PATH.".
Definition status_authenticated : str := lit "jira-cli is authenticated ✅".
Definition status_missing : str :=
  lit "jira-cli configuration missing. Press 'g' to run jira init.".
Definition install_hint : str :=
  lit "Unable to find `jira` binary. Install https://github.com/ankitpokhrel/jira-cli".

(** The world when the application has mounted its widgets: each panel
    shows its placeholder and the status widget its initial text. *)
Definition initial_world : World :=
  mkWorld [] [lit "Issue lists will appear here."]
          [lit "Issue details will appear here."]
          (lit "Checking jira-cli configuration…") false [].

(** An environment that answers every launch and every dialog alike. *)
Definition env_const (sp : Spawned) (g : Gesture) : Env :=
  mkEnv (fun _ _ => sp) (fun _ => g).

(** An environment in which [jira] answers the first launch and is gone at
    the second. *)
Definition env_binary_removed : Env :=
  mkEnv (fun n _ => match n with
                    | O => Exited (bytes_lit "Authenticated") [] 0
                    | S _ => NotFound
                    end)
        (fun _ => PressCancel).

(** An environment whose user submits a key to the first dialog and
    cancels every later one. *)
Definition env_key_then_cancel : Env :=
  mkEnv (fun _ _ => Exited [] [] 0)
        (fun n => match n with
                  | O => PressSubmit (lit " AB-1 ")
                  | S _ => PressCancel
                  end).

(** The actions that collect their arguments through dialogs, the dialogs
    each one opens in order, and the world after the first [n] of them. *)
Inductive PromptedAction := Search | ViewIssue | CommentIssue | TransitionIssue.

Definition run_action (E : Env) (a : PromptedAction) : M unit :=
  match a with
  | Search => action_search E
  | ViewIssue => action_view_issue E
  | CommentIssue => action_comment_issue E
  | TransitionIssue => action_transition_issue E
  end.

Definition prompt_chain (a : PromptedAction) : list Event :=
  match a with
  | Search =>
      [EvPrompt (lit "JQL Search") (lit "Enter a JQL query")
                (lit "project = KEY ORDER BY updated DESC")]
  | ViewIssue =>
      [EvPrompt (lit "View Issue") (lit "Enter issue key") (lit "ABC-123")]
  | CommentIssue =>
      [EvPrompt (lit "Add Comment") (lit "Issue key") (lit "ABC-123");
       EvPrompt (lit "Add Comment") (lit "Comment body") []]
  | TransitionIssue =>
      [EvPrompt (lit "Transition Issue") (lit "Issue key") (lit "ABC-123");
       EvPrompt (lit "Transition Issue") (lit "Target state") (lit "In Progress")]
  end.

(** The answer to the [i]-th dialog opened from world [w] on. *)
Definition answer (E : Env) (w : World) (i : nat) : option str :=
  InputDialog_result (user E (count_prompts (events w) + i)).

Definition is_show_error (p : PanelId) (e : Event) : bool :=
  match e with
  | EvPanel q (ShowError _) =>
      match p, q with
      | IssueListPanel, IssueListPanel => true
      | IssueDetailPanel, IssueDetailPanel => true
      | _, _ => false
      end
  | _ => false
  end.

(** ** The remaining actions and the fallback terminal *)

(** [action_refresh]. *)
Definition action_refresh (E : Env) : M unit := check_configuration E.

(** [action_show_help]: the legend goes through [_log] as one text. *)
Definition help_commands : list str :=
  [lit "g – configure jira-cli (runs `jira init`)";
   lit "R – re-check authentication";
   lit "/ – run an arbitrary JQL search";
   lit "i – list issues assigned to you";
   lit "v – view an issue";
   lit "c – create a new issue";
   lit "C – add a comment to an issue";
   lit "t – transition an issue";
   lit "q – quit"].

Definition action_show_help : M unit :=
  let commands := help_commands in
  _log ((lit "Available shortcuts:" ++ [10%N]) ++ join [10%N] commands).

(** The placeholder [Terminal.run_command], used when Textual has no
    [Terminal] widget: the text it hands to [update]. *)
Definition Terminal_run_command (command : list str) : str :=
  let command_text := join (lit " ") command in
  (lit "Terminal widget not available." ++ [10%N])
    ++ (lit "Run the following command manually in your shell:" ++ [10%N])
    ++ (lit "$ " ++ command_text).

(** The world a run without capture leaves behind once the process has
    ended with return code [rc]. *)
Definition after_uncaptured_run
    (cmd : list str) (log_command : bool) (target : option PanelId)
    (rc : Z) (w : World) : World :=
  let w1 := if log_command then logged (splitlines (echo_line cmd)) w else w in
  let w2 := recorded [EvExec cmd false] w1 in
  if (rc =? 0)%Z then w2 else reported (failure_message cmd rc) target w2.

(** The world a captured run leaves behind when a pipe is not UTF-8. *)
Definition after_decode_error
    (cmd : list str) (log_command : bool) (w : World) : World :=
  recorded [EvExec cmd true]
    (if log_command then logged (splitlines (echo_line cmd)) w else w).

(** The four ways a run can end. *)
Inductive RunOutcome
    (E : Env) (args : list str) (captured log_command : bool)
    (target : option PanelId) (w : World) : Res CommandResult * World -> Prop :=
| RunMissing :
    os E (count_execs (events w)) (lit "jira" :: args) = NotFound ->
    RunOutcome E args captured log_command target w
      (Raise FileNotFoundError,
       after_missing_binary (lit "jira" :: args) captured log_command target w)
| RunCaptured ob eb rc out err :
    captured = true ->
    os E (count_execs (events w)) (lit "jira" :: args) = Exited ob eb rc ->
    decode ob = Some out -> decode eb = Some err ->
    RunOutcome E args captured log_command target w
      (Return (mkCommandResult (lit "jira" :: args) (strip out) (strip err) rc),
       after_captured_run (lit "jira" :: args) log_command target
                          (strip out) (strip err) rc w)
| RunDecodeError ob eb rc :
    captured = true ->
    os E (count_execs (events w)) (lit "jira" :: args) = Exited ob eb rc ->
    decode ob = None \/ decode eb = None ->
    RunOutcome E args captured log_command target w
      (Raise UnicodeDecodeError,
       after_decode_error (lit "jira" :: args) log_command w)
| RunUncaptured ob eb rc :
    captured = false ->
    os E (count_execs (events w)) (lit "jira" :: args) = Exited ob eb rc ->
    RunOutcome E args captured log_command target w
      (Return (mkCommandResult (lit "jira" :: args) [] [] rc),
       after_uncaptured_run (lit "jira" :: args) log_command target rc w).

(** The panel that is not [p]. *)
Definition other_panel (p : PanelId) : PanelId :=
  match p with
  | IssueListPanel => IssueDetailPanel
  | IssueDetailPanel => IssueListPanel
  end.

(** [w'] is [w] with more lines in the log and more calls recorded. *)
Definition extends (w w' : World) : Prop :=
  exists ls evs,
    log_lines w' = log_lines w ++ ls /\ events w' = events w ++ evs.

(** A computation only ever adds to the log and to the record of calls. *)
Definition monotone {A} (m : M A) : Prop :=
  forall w, extends w (snd (m w)).

(** A computation never lets [FileNotFoundError] out. *)
Definition contains_missing_binary {A} (m : M A) : Prop :=
  forall w, fst (m w) <> Raise FileNotFoundError.

(** Everything the application can be asked to do in this model: the
    runner, the probe, the actions and the panel methods. *)
Inductive Operation :=
| OpRun (args : list str) (capture_output log_command : bool)
        (stdout_target : option PanelId)
| OpCheckConfiguration
| OpRefresh
| OpShowHelp
| OpMyIssues
| OpPrompted (a : PromptedAction)
| OpShowMessage (p : PanelId) (message : str)
| OpShowError (p : PanelId) (message : str)
| OpDisplayOutput (p : PanelId) (output : str).

(** The exception that left a computation, if any, and the world after it. *)
Definition forget {A} (r : Res A * World) : option Exn * World :=
  (match fst r with Return _ => None | Raise e => Some e end, snd r).

Definition perform (E : Env) (op : Operation) (w : World) : option Exn * World :=
  match op with
  | OpRun args c l t => forget (_run_jira_command E args c l t w)
  | OpCheckConfiguration => forget (check_configuration E w)
  | OpRefresh => forget (action_refresh E w)
  | OpShowHelp => forget (action_show_help w)
  | OpMyIssues => forget (action_my_issues E w)
  | OpPrompted a => forget (run_action E a w)
  | OpShowMessage p m => forget (show_message p m w)
  | OpShowError p m => forget (show_error p m w)
  | OpDisplayOutput p o => forget (display_output p o w)
  end.

(** The argument vectors the actions build. *)
Definition search_args (query : str) : list str :=
  [lit "issue"; lit "list"; lit "--jql"; query; lit "--plain"].
Definition my_issues_args : list str :=
  [lit "issue"; lit "list"; lit "--assignee"; lit "me";
   lit "--order-by"; lit "updated"; lit "--reverse"; lit "--plain"].
Definition view_args (key : str) : list str :=
  [lit "issue"; lit "view"; key; lit "--plain"].
Definition comment_args (key comment : str) : list str :=
  [lit "issue"; lit "comment"; lit "add"; key; lit "--comment"; comment].
Definition transition_args (key state : str) : list str :=
  [lit "issue"; lit "transition"; key; lit "--state"; state].

Arguments lit : simpl never.
Arguments strip : simpl never.
Arguments splitlines : simpl never.
Arguments join : simpl never.
Arguments str_of_int : simpl never.
Arguments echo_line : simpl never.
Arguments failure_message : simpl never.
Arguments missing_binary_message : simpl never.
Arguments install_hint : simpl never.

(** ** Facts about Python text *)

Section Text.

Lemma lstrip_all_space (s : str) :
  forallb isspace s = true -> lstrip s = [].
Proof.
  induction s as [|c s IH]; simpl; [reflexivity|].
  destruct (isspace c); simpl; [exact IH | discriminate].
Qed.

Lemma lstrip_nil_all_space (s : str) :
  lstrip s = [] -> forallb isspace s = true.
Proof.
  induction s as [|c s IH]; simpl; [reflexivity|].
  destruct (isspace c); simpl; [exact IH | discriminate].
Qed.

Lemma lstrip_starts_clean (s : str) : starts_clean (lstrip s).
Proof.
  induction s as [|c s IH]; simpl; [exact I|].
  destruct (isspace c) eqn:Hc; [exact IH | exact Hc].
Qed.

Lemma lstrip_clean (s : str) : starts_clean s -> lstrip s = s.
Proof.
  destruct s as [|c s]; simpl; [reflexivity|].
  intros ->. reflexivity.
Qed.

Lemma lstrip_snoc (u : str) (x : char) :
  isspace x = false -> lstrip (u ++ [x]) = lstrip u ++ [x].
Proof.
  intros Hx. induction u as [|c u IH]; simpl.
  - rewrite Hx. reflexivity.
  - destruct (isspace c); [exact IH | reflexivity].
Qed.

Lemma rstrip_cons_clean (c : char) (s : str) :
  isspace c = false -> rstrip (c :: s) = c :: rstrip s.
Proof.
  intros Hc. unfold rstrip. simpl.
  rewrite (lstrip_snoc _ _ Hc), rev_app_distr. reflexivity.
Qed.

Lemma rstrip_cons_space (c : char) (s : str) :
  isspace c = true ->
  rstrip (c :: s) = match rstrip s with [] => [] | _ :: _ => c :: rstrip s end.
Proof.
  intros Hc. unfold rstrip. simpl.
  induction (rev s) as [|d u IH]; simpl.
  - rewrite Hc. reflexivity.
  - destruct (isspace d) eqn:Hd.
    + exact IH.
    + simpl. destruct (rev u ++ [d]) eqn:Hu.
      * destruct (rev u); discriminate.
      * rewrite <- Hu, rev_app_distr. reflexivity.
Qed.

Lemma rstrip_idempotent (s : str) : rstrip (rstrip s) = rstrip s.
Proof.
  unfold rstrip. rewrite rev_involutive.
  rewrite (lstrip_clean _ (lstrip_starts_clean _)). reflexivity.
Qed.

Lemma rstrip_starts_clean (s : str) : starts_clean s -> starts_clean (rstrip s).
Proof.
  destruct s as [|c s]; simpl; intros H.
  - exact I.
  - rewrite (rstrip_cons_clean _ _ H). exact H.
Qed.

Lemma strip_starts_clean (s : str) : starts_clean (strip s).
Proof. apply rstrip_starts_clean, lstrip_starts_clean. Qed.

(** Trimming twice is trimming once. *)
Lemma strip_idempotent (s : str) : strip (strip s) = strip s.
Proof.
  unfold strip at 1.
  rewrite (lstrip_clean _ (strip_starts_clean s)).
  unfold strip. apply rstrip_idempotent.
Qed.

Lemma strip_all_space (s : str) : forallb isspace s = true -> strip s = [].
Proof. intros H. unfold strip. rewrite (lstrip_all_space _ H). reflexivity. Qed.

Lemma strip_nil_all_space (s : str) : strip s = [] -> forallb isspace s = true.
Proof.
  unfold strip. intros H. apply lstrip_nil_all_space.
  pose proof (lstrip_starts_clean s) as Hc.
  destruct (lstrip s) as [|c t]; [reflexivity|].
  simpl in Hc. rewrite (rstrip_cons_clean _ _ Hc) in H. discriminate.
Qed.

(** The dialog's and the panel's test [strip s or ...] decides whether [s]
    is made of whitespace only. *)
Lemma truthy_strip (s : str) : truthy (strip s) = negb (forallb isspace s).
Proof.
  destruct (forallb isspace s) eqn:H.
  - rewrite (strip_all_space _ H). reflexivity.
  - destruct (strip s) eqn:Hs; [|reflexivity].
    apply strip_nil_all_space in Hs. congruence.
Qed.

Lemma linebreak_is_space (c : char) : islinebreak c = true -> isspace c = true.
Proof.
  unfold islinebreak, isspace, in_range. intros H.
  repeat match type of H with
         | (_ || _) = true => apply orb_prop in H; destruct H as [H|H]
         end;
  repeat match goal with
         | H : (_ && _) = true |- _ => apply andb_prop in H; destruct H
         | H : (_ <=? _)%N = true |- _ => apply N.leb_le in H
         | H : (_ =? _)%N = true |- _ => apply N.eqb_eq in H
         end;
  repeat (apply orb_true_iff;
          first [ right; apply N.eqb_eq; lia
                | right; apply andb_true_iff; split; apply N.leb_le; lia
                | left ]);
  try (apply andb_true_iff; split; apply N.leb_le; lia).
Qed.

Lemma splitlines_from_nonempty (cur s : str) :
  cur <> [] -> splitlines_from cur s <> [].
Proof.
  revert cur. induction s as [|c s IH]; intros cur Hcur; simpl.
  - destruct cur; [congruence | discriminate].
  - destruct (islinebreak c); [discriminate|].
    apply IH. discriminate.
Qed.

(** A text that starts with a character other than whitespace has at least
    one line. *)
Lemma splitlines_clean_nonempty (s : str) :
  s <> [] -> starts_clean s -> splitlines s <> [].
Proof.
  destruct s as [|c s]; [congruence|]. intros _ Hc.
  unfold splitlines. simpl.
  destruct (islinebreak c) eqn:Hb.
  - apply linebreak_is_space in Hb. simpl in Hc. congruence.
  - apply splitlines_from_nonempty. discriminate.
Qed.

Lemma splitlines_from_no_break (cur s : str) :
  existsb islinebreak s = false ->
  splitlines_from cur s =
    match rev cur ++ s with [] => [] | _ :: _ => [rev cur ++ s] end.
Proof.
  revert cur. induction s as [|c s IH]; intros cur H; simpl.
  - rewrite app_nil_r. destruct cur as [|x cur]; simpl; [reflexivity|].
    destruct (rev cur ++ [x]) eqn:Hr; [destruct (rev cur); discriminate|].
    reflexivity.
  - simpl in H. apply orb_false_iff in H. destruct H as [Hc Hs].
    rewrite Hc, (IH _ Hs). simpl. rewrite <- app_assoc. reflexivity.
Qed.

(** A non-empty text without line boundaries is its own single line. *)
Lemma splitlines_single (s : str) :
  s <> [] -> existsb islinebreak s = false -> splitlines s = [s].
Proof.
  intros Hne H. unfold splitlines.
  rewrite (splitlines_from_no_break _ _ H). simpl.
  destruct s; [congruence | reflexivity].
Qed.

End Text.

(** ** The widget operations in closed form *)

Section Widgets.

Lemma recorded_nil (w : World) : recorded [] w = w.
Proof. destruct w. unfold recorded. simpl. rewrite app_nil_r. reflexivity. Qed.

Lemma logged_nil (w : World) : logged [] w = w.
Proof. destruct w. unfold logged. simpl. rewrite !app_nil_r. reflexivity. Qed.

Lemma for_each_log (ls : list str) (w : World) :
  for_each ls log_widget_write w = (Return tt, logged ls w).
Proof.
  revert w. induction ls as [|l ls IH]; intros w; simpl.
  - unfold ret. rewrite logged_nil. reflexivity.
  - unfold bind. simpl. rewrite IH. unfold logged. simpl.
    rewrite <- !app_assoc. reflexivity.
Qed.

Lemma for_each_panel_write (p : PanelId) (ls : list str) (w : World) :
  for_each ls (panel_write p) w = (Return tt, with_panel p (panel_lines p w ++ ls) w).
Proof.
  revert w. induction ls as [|l ls IH]; intros w; simpl.
  - unfold ret. rewrite app_nil_r. destruct w, p; reflexivity.
  - unfold bind. simpl. rewrite IH.
    destruct p; simpl; rewrite <- app_assoc; reflexivity.
Qed.

Lemma show_message_eq (p : PanelId) (message : str) (w : World) :
  show_message p message w = (Return tt, shown p message w).
Proof.
  unfold show_message, bind. simpl.
  rewrite for_each_panel_write. destruct p; reflexivity.
Qed.

Lemma show_error_eq (p : PanelId) (message : str) (w : World) :
  show_error p message w = (Return tt, errored p message w).
Proof.
  unfold show_error, bind. simpl. rewrite show_message_eq. reflexivity.
Qed.

Lemma display_output_eq (p : PanelId) (output : str) (w : World) :
  display_output p output w = (Return tt, displayed p output w).
Proof.
  unfold display_output, bind. simpl. rewrite show_message_eq. reflexivity.
Qed.

End Widgets.

(** ** The command runner in closed form *)

Section Runner.

Variable E : Env.

Lemma _log_eq (message : str) (w : World) :
  _log message w = (Return tt, logged (splitlines message) w).
Proof. apply for_each_log. Qed.

Lemma _log_if_truthy (s : str) (w : World) :
  (if truthy s then _log s else ret tt) w
  = (Return tt, if truthy s then logged (splitlines s) w else w).
Proof. destruct s; [reflexivity | apply _log_eq]. Qed.

Lemma count_execs_app (xs ys : list Event) :
  count_execs (xs ++ ys) = count_execs xs + count_execs ys.
Proof. unfold count_execs. rewrite filter_app, length_app. reflexivity. Qed.

Lemma count_execs_log (ls : list str) : count_execs (map EvLogWrite ls) = 0.
Proof. induction ls as [|l ls IH]; [reflexivity | exact IH]. Qed.

Lemma count_execs_logged (ls : list str) (w : World) :
  count_execs (events (logged ls w)) = count_execs (events w).
Proof. simpl. rewrite count_execs_app, count_execs_log. lia. Qed.

Lemma filter_show_error_log (p : PanelId) (ls : list str) :
  filter (is_show_error p) (map EvLogWrite ls) = [].
Proof. induction ls as [|l ls IH]; [reflexivity | exact IH]. Qed.

Lemma reported_eq (message : str) (target : option PanelId) (w : World) :
  (_log message ;;
   match target with
   | Some p => show_error p message
   | None => ret tt
   end) w = (Return tt, reported message target w).
Proof.
  unfold bind. rewrite _log_eq. destruct target as [p|]; simpl.
  - apply show_error_eq.
  - reflexivity.
Qed.

Lemma _handle_command_failure_eq
    (result : CommandResult) (target : option PanelId) (w : World) :
  _handle_command_failure result target w
  = (Return tt,
     reported (failure_message (command result) (returncode result)) target w).
Proof. apply reported_eq. Qed.

Lemma _handle_missing_binary_eq (target : option PanelId) (w : World) :
  _handle_missing_binary target w
  = (Return tt, reported missing_binary_message target w).
Proof. apply reported_eq. Qed.

Lemma echo_eq (cmd : list str) (log_command : bool) (w : World) :
  (if log_command then _log (lit "$ " ++ join (lit " ") cmd) else ret tt) w
  = (Return tt,
     if log_command then logged (splitlines (echo_line cmd)) w else w).
Proof. destruct log_command; [apply _log_eq | reflexivity]. Qed.

Lemma count_execs_echo (cmd : list str) (log_command : bool) (w : World) :
  count_execs
    (events (if log_command then logged (splitlines (echo_line cmd)) w else w))
  = count_execs (events w).
Proof. destruct log_command; [apply count_execs_logged | reflexivity]. Qed.

(** A missing executable: the diagnostic is reported and
    [FileNotFoundError] is raised again, in either mode. *)
Lemma run_missing_binary
    (args : list str) (captured log_command : bool)
    (target : option PanelId) (w : World) :
  os E (count_execs (events w)) (lit "jira" :: args) = NotFound ->
  _run_jira_command E args captured log_command target w
  = (Raise FileNotFoundError,
     after_missing_binary (lit "jira" :: args) captured log_command target w).
Proof.
  intros Hos. unfold _run_jira_command, after_missing_binary.
  unfold bind at 1. rewrite echo_eq.
  destruct captured; unfold bind at 1;
    unfold try_except_FileNotFoundError, create_subprocess_exec;
    rewrite count_execs_echo, Hos; simpl;
    unfold bind; rewrite _handle_missing_binary_eq; reflexivity.
Qed.

(** A captured run whose process ended and whose pipes hold UTF-8 returns
    the [CommandResult] built from the trimmed texts. *)
Lemma run_captured
    (args : list str) (log_command : bool) (target : option PanelId)
    (w : World) (ob eb : bytes) (rc : Z) (out err : str) :
  os E (count_execs (events w)) (lit "jira" :: args) = Exited ob eb rc ->
  decode ob = Some out ->
  decode eb = Some err ->
  _run_jira_command E args true log_command target w
  = (Return (mkCommandResult (lit "jira" :: args) (strip out) (strip err) rc),
     after_captured_run (lit "jira" :: args) log_command target
                        (strip out) (strip err) rc w).
Proof.
  intros Hos Hout Herr. unfold _run_jira_command, after_captured_run.
  unfold bind at 1. rewrite echo_eq.
  unfold bind at 1.
  unfold try_except_FileNotFoundError, create_subprocess_exec.
  rewrite count_execs_echo, Hos. simpl.
  unfold bind at 1. unfold bytes_decode. rewrite Hout. unfold ret at 1.
  unfold bind at 1. rewrite Herr. unfold ret at 1.
  unfold bind at 1.
  assert (Hrt :
    forall w0,
      (if truthy (strip out)
       then match target with
            | Some p => display_output p (strip out)
            | None => _log (strip out)
            end
       else ret tt) w0
      = (Return tt,
         if truthy (strip out)
         then match target with
              | Some p => displayed p (strip out) w0
              | None => logged (splitlines (strip out)) w0
              end
         else w0)).
  { intros w0. destruct (truthy (strip out)); [|reflexivity].
    destruct target; [apply display_output_eq | apply _log_eq]. }
  rewrite Hrt. unfold bind at 1. rewrite _log_if_truthy.
  unfold bind at 1. unfold ok. simpl.
  destruct (rc =? 0)%Z; simpl.
  - reflexivity.
  - rewrite _handle_command_failure_eq. reflexivity.
Qed.

(** If the standard output is not UTF-8, [decode] raises and nothing after
    the launch happens. *)
Lemma run_captured_bad_stdout
    (args : list str) (log_command : bool) (target : option PanelId)
    (w : World) (ob eb : bytes) (rc : Z) :
  os E (count_execs (events w)) (lit "jira" :: args) = Exited ob eb rc ->
  decode ob = None ->
  _run_jira_command E args true log_command target w
  = (Raise UnicodeDecodeError,
     recorded [EvExec (lit "jira" :: args) true]
       (if log_command
        then logged (splitlines (echo_line (lit "jira" :: args))) w else w)).
Proof.
  intros Hos Hout. unfold _run_jira_command.
  unfold bind at 1. rewrite echo_eq.
  unfold bind at 1.
  unfold try_except_FileNotFoundError, create_subprocess_exec.
  rewrite count_execs_echo, Hos. simpl.
  unfold bind at 1. unfold bytes_decode. rewrite Hout. reflexivity.
Qed.

Lemma run_captured_bad_stderr
    (args : list str) (log_command : bool) (target : option PanelId)
    (w : World) (ob eb : bytes) (rc : Z) (out : str) :
  os E (count_execs (events w)) (lit "jira" :: args) = Exited ob eb rc ->
  decode ob = Some out ->
  decode eb = None ->
  _run_jira_command E args true log_command target w
  = (Raise UnicodeDecodeError,
     recorded [EvExec (lit "jira" :: args) true]
       (if log_command
        then logged (splitlines (echo_line (lit "jira" :: args))) w else w)).
Proof.
  intros Hos Hout Herr. unfold _run_jira_command.
  unfold bind at 1. rewrite echo_eq.
  unfold bind at 1.
  unfold try_except_FileNotFoundError, create_subprocess_exec.
  rewrite count_execs_echo, Hos. simpl.
  unfold bind at 1. unfold bytes_decode. rewrite Hout. unfold ret at 1.
  unfold bind at 1. rewrite Herr. reflexivity.
Qed.

(** Every captured run that returns is of the shape [run_captured]
    describes. *)
Lemma run_captured_inv
    (args : list str) (log_command : bool) (target : option PanelId)
    (w w' : World) (r : CommandResult) :
  _run_jira_command E args true log_command target w = (Return r, w') ->
  exists ob eb out err,
    os E (count_execs (events w)) (lit "jira" :: args)
      = Exited ob eb (returncode r)
    /\ decode ob = Some out /\ decode eb = Some err
    /\ r = mkCommandResult (lit "jira" :: args) (strip out) (strip err)
                           (returncode r)
    /\ w' = after_captured_run (lit "jira" :: args) log_command target
                               (strip out) (strip err) (returncode r) w.
Proof.
  intros Hrun.
  destruct (os E (count_execs (events w)) (lit "jira" :: args))
    as [|ob eb rc] eqn:Hos.
  - rewrite (run_missing_binary _ _ _ _ _ Hos) in Hrun. discriminate.
  - destruct (decode ob) as [out|] eqn:Hout.
    + destruct (decode eb) as [err|] eqn:Herr.
      * rewrite (run_captured _ _ _ _ _ _ _ _ _ Hos Hout Herr) in Hrun.
        injection Hrun as Hr Hw. subst r w'. simpl.
        exists ob, eb, out, err. repeat split; assumption || reflexivity.
      * rewrite (run_captured_bad_stderr _ log_command target _ _ _ _ _ Hos Hout Herr)
          in Hrun. discriminate.
    + rewrite (run_captured_bad_stdout _ log_command target _ _ _ _ Hos Hout)
        in Hrun. discriminate.
Qed.

End Runner.

(** ** Reading the fields of an updated world *)

Section Fields.

Variables (p : PanelId) (ls : list str) (m : str) (evs : list Event) (w : World).

Lemma log_lines_logged : log_lines (logged ls w) = log_lines w ++ ls.
Proof. reflexivity. Qed.
Lemma events_logged : events (logged ls w) = events w ++ map EvLogWrite ls.
Proof. reflexivity. Qed.
Lemma status_logged : status (logged ls w) = status w.
Proof. reflexivity. Qed.
Lemma configured_logged : configured (logged ls w) = configured w.
Proof. reflexivity. Qed.
Lemma panel_lines_logged : panel_lines p (logged ls w) = panel_lines p w.
Proof. destruct p; reflexivity. Qed.

Lemma log_lines_recorded : log_lines (recorded evs w) = log_lines w.
Proof. reflexivity. Qed.
Lemma events_recorded : events (recorded evs w) = events w ++ evs.
Proof. reflexivity. Qed.
Lemma status_recorded : status (recorded evs w) = status w.
Proof. reflexivity. Qed.
Lemma configured_recorded : configured (recorded evs w) = configured w.
Proof. reflexivity. Qed.
Lemma panel_lines_recorded : panel_lines p (recorded evs w) = panel_lines p w.
Proof. destruct p; reflexivity. Qed.

Lemma log_lines_with_panel : log_lines (with_panel p ls w) = log_lines w.
Proof. destruct p; reflexivity. Qed.
Lemma events_with_panel : events (with_panel p ls w) = events w.
Proof. destruct p; reflexivity. Qed.
Lemma status_with_panel : status (with_panel p ls w) = status w.
Proof. destruct p; reflexivity. Qed.
Lemma configured_with_panel : configured (with_panel p ls w) = configured w.
Proof. destruct p; reflexivity. Qed.
Lemma panel_lines_with_panel : panel_lines p (with_panel p ls w) = ls.
Proof. destruct p; reflexivity. Qed.

Lemma log_lines_shown : log_lines (shown p m w) = log_lines w.
Proof. destruct p; reflexivity. Qed.
Lemma events_shown : events (shown p m w) = events w ++ [EvPanel p (ShowMessage m)].
Proof. destruct p; reflexivity. Qed.
Lemma status_shown : status (shown p m w) = status w.
Proof. destruct p; reflexivity. Qed.
Lemma configured_shown : configured (shown p m w) = configured w.
Proof. destruct p; reflexivity. Qed.
Lemma panel_lines_shown :
  panel_lines p (shown p m w) = or_lines (splitlines m) [[]].
Proof. destruct p; reflexivity. Qed.

Lemma log_lines_errored : log_lines (errored p m w) = log_lines w.
Proof. destruct p; reflexivity. Qed.
Lemma events_errored :
  events (errored p m w)
  = events w ++ [EvPanel p (ShowError m); EvPanel p (ShowMessage (lit "Error: " ++ m))].
Proof. destruct p; simpl; rewrite <- app_assoc; reflexivity. Qed.
Lemma status_errored : status (errored p m w) = status w.
Proof. destruct p; reflexivity. Qed.
Lemma configured_errored : configured (errored p m w) = configured w.
Proof. destruct p; reflexivity. Qed.
Lemma panel_lines_errored :
  panel_lines p (errored p m w) = or_lines (splitlines (lit "Error: " ++ m)) [[]].
Proof. destruct p; reflexivity. Qed.

Lemma log_lines_displayed : log_lines (displayed p m w) = log_lines w.
Proof. destruct p; reflexivity. Qed.
Lemma events_displayed :
  events (displayed p m w)
  = events w ++ [EvPanel p (DisplayOutput m);
                 EvPanel p (ShowMessage (or_str (strip m) (lit "No data returned.")))].
Proof. destruct p; simpl; rewrite <- app_assoc; reflexivity. Qed.
Lemma status_displayed : status (displayed p m w) = status w.
Proof. destruct p; reflexivity. Qed.
Lemma configured_displayed : configured (displayed p m w) = configured w.
Proof. destruct p; reflexivity. Qed.
Lemma panel_lines_displayed :
  panel_lines p (displayed p m w)
  = or_lines (splitlines (or_str (strip m) (lit "No data returned."))) [[]].
Proof. destruct p; reflexivity. Qed.

Lemma logged_if_truthy :
  (if truthy m then logged (splitlines m) w else w) = logged (splitlines m) w.
Proof. destruct m; [symmetry; apply logged_nil | reflexivity]. Qed.

Lemma splitlines_if_truthy :
  (if truthy m then splitlines m else []) = splitlines m.
Proof. destruct m; reflexivity. Qed.

Lemma logged_if (c : bool) :
  (if c then logged ls w else w) = logged (if c then ls else []) w.
Proof. destruct c; [reflexivity | symmetry; apply logged_nil]. Qed.

End Fields.

Create Rewrite HintDb world.

#[export] Hint Rewrite
  log_lines_logged events_logged status_logged configured_logged
  panel_lines_logged
  log_lines_recorded events_recorded status_recorded configured_recorded
  panel_lines_recorded
  log_lines_with_panel events_with_panel status_with_panel
  configured_with_panel panel_lines_with_panel
  log_lines_shown events_shown status_shown configured_shown panel_lines_shown
  log_lines_errored events_errored status_errored configured_errored
  panel_lines_errored
  log_lines_displayed events_displayed status_displayed configured_displayed
  panel_lines_displayed
  logged_if_truthy logged_if splitlines_if_truthy : world.

(** Normalise the fields of a world built from the closed forms. *)
Ltac fields :=
  cbn [fst snd]; autorewrite with world; simpl;
  repeat rewrite <- app_assoc; simpl.

Section Trimmed.

(** A trimmed, non-empty text goes through [display_output] unchanged and
    fills the panel with its lines. *)
Lemma or_str_strip_trimmed (s : str) :
  strip s <> [] -> or_str (strip (strip s)) (lit "No data returned.") = strip s.
Proof.
  intros H. rewrite strip_idempotent. destruct (strip s); [congruence | reflexivity].
Qed.

Lemma or_lines_trimmed (s : str) :
  strip s <> [] -> or_lines (splitlines (strip s)) [[]] = splitlines (strip s).
Proof.
  intros H.
  pose proof (splitlines_clean_nonempty _ H (strip_starts_clean s)) as Hne.
  destruct (splitlines (strip s)); [congruence | reflexivity].
Qed.

End Trimmed.

(** Whatever the process does, a captured run first echoes the command (if
    asked to) and then launches it. *)
Lemma run_captured_events_prefix
    (E : Env) (args : list str) (log_command : bool) (target : option PanelId) (w : World) :
  exists rest,
    events (snd (_run_jira_command E args true log_command target w))
    = events w
        ++ map EvLogWrite
             (if log_command
              then splitlines (echo_line (lit "jira" :: args)) else [])
        ++ [EvExec (lit "jira" :: args) true] ++ rest.
Proof.
  destruct (os E (count_execs (events w)) (lit "jira" :: args))
    as [|ob eb rc] eqn:Hos.
  - rewrite (run_missing_binary E _ _ _ _ _ Hos). unfold after_missing_binary, reported.
    destruct target; eexists; fields; reflexivity.
  - destruct (decode ob) as [out|] eqn:Hout.
    + destruct (decode eb) as [err|] eqn:Herr.
      * rewrite (run_captured E _ log_command target _ _ _ _ _ _ Hos Hout Herr).
        unfold after_captured_run, reported.
        destruct (rc =? 0)%Z, target, (truthy (strip out));
          eexists; fields; reflexivity.
      * rewrite (run_captured_bad_stderr E _ log_command target _ _ _ _ _ Hos Hout Herr).
        exists []. fields. reflexivity.
    + rewrite (run_captured_bad_stdout E _ log_command target _ _ _ _ Hos Hout).
      exists []. fields. reflexivity.
Qed.


(** ** What trimming removes; texts without line boundaries *)

Section MoreText.

Lemma lstrip_decompose (s : str) :
  exists pre, s = pre ++ lstrip s /\ forallb isspace pre = true.
Proof.
  induction s as [|c s (pre & Hs & Hpre)]; simpl.
  - exists []. split; reflexivity.
  - destruct (isspace c) eqn:Hc.
    + exists (c :: pre). simpl. rewrite Hc, Hpre, <- Hs. split; reflexivity.
    + exists []. split; reflexivity.
Qed.

Lemma forallb_rev {A} (f : A -> bool) (l : list A) :
  forallb f l = true -> forallb f (rev l) = true.
Proof.
  rewrite !forallb_forall. intros H x Hx. apply H, in_rev, Hx.
Qed.

Lemma rstrip_decompose (s : str) :
  exists post, s = rstrip s ++ post /\ forallb isspace post = true.
Proof.
  destruct (lstrip_decompose (rev s)) as (pre & Hs & Hpre).
  exists (rev pre). split.
  - unfold rstrip. rewrite <- rev_app_distr, <- Hs, rev_involutive. reflexivity.
  - apply forallb_rev, Hpre.
Qed.

(** [strip] removes a run of whitespace at each end and nothing else. *)
Lemma strip_trimmed_of (s : str) : trimmed_of s (strip s).
Proof.
  destruct (lstrip_decompose s) as (pre & Hs & Hpre).
  destruct (rstrip_decompose (lstrip s)) as (post & Ht & Hpost).
  exists pre, post. repeat split; try assumption.
  - unfold strip. rewrite <- Ht. exact Hs.
  - apply strip_starts_clean.
  - unfold strip, rstrip. rewrite rev_involutive. apply lstrip_starts_clean.
Qed.

Lemma no_break_app (s t : str) :
  no_break (s ++ t) = no_break s && no_break t.
Proof. unfold no_break. rewrite existsb_app, negb_orb. reflexivity. Qed.

Lemma no_break_join (sep : str) (parts : list str) :
  no_break sep = true -> forallb no_break parts = true ->
  no_break (join sep parts) = true.
Proof.
  intros Hsep. induction parts as [|a parts IH]; intros H.
  - reflexivity.
  - simpl in H. apply andb_prop in H. destruct H as [Ha Hrest].
    destruct parts as [|b parts]; [exact Ha|].
    change (join sep (a :: b :: parts)) with (a ++ sep ++ join sep (b :: parts)).
    rewrite !no_break_app, Ha, Hsep, (IH Hrest). reflexivity.
Qed.

Lemma no_break_digits (d : Decimal.uint) :
  no_break (map N_of_ascii (list_ascii_of_string (NilEmpty.string_of_uint d))) = true.
Proof. induction d; simpl; try reflexivity; exact IHd. Qed.

Lemma no_break_uint (d : Decimal.uint) :
  no_break (map N_of_ascii (list_ascii_of_string (NilZero.string_of_uint d))) = true.
Proof. destruct d; try reflexivity; apply (no_break_digits (_ d)). Qed.

Lemma no_break_str_of_int (n : Z) : no_break (str_of_int n) = true.
Proof.
  unfold str_of_int. destruct (Z.to_int n) as [d|d]; simpl.
  - apply no_break_uint.
  - apply no_break_uint.
Qed.

(** The failure message of a command whose arguments hold no line boundary
    is a single line. *)
Lemma failure_message_single (args : list str) (code : Z) :
  forallb no_break args = true ->
  splitlines (failure_message (lit "jira" :: args) code)
  = [failure_message (lit "jira" :: args) code].
Proof.
  intros Hargs. apply splitlines_single.
  - unfold failure_message.
    destruct (lit "Command '") eqn:H; [vm_compute in H|]; discriminate.
  - assert (H : no_break (failure_message (lit "jira" :: args) code) = true).
    { unfold failure_message. rewrite !no_break_app, no_break_str_of_int.
      rewrite no_break_join; [reflexivity | reflexivity |].
      simpl. rewrite Hargs. reflexivity. }
    unfold no_break in H. apply negb_true_iff in H. exact H.
Qed.

End MoreText.

(** ** The command runner: routing of captured output *)





(** ** The command runner: failures *)




(** ** The command runner: the result's texts *)

(** C5, as the code has it. When the process of a captured run has ended
    and its pipes hold UTF-8, the run returns a [CommandResult] whose
    [stdout] and [stderr] are the decoded texts without their leading and
    trailing whitespace. *)
Theorem result_texts_stripped
    (E : Env) (args : list str) (log_command : bool)
    (target : option PanelId) (w : World)
    (ob eb : bytes) (rc : Z) (out err : str) :
  os E (count_execs (events w)) (lit "jira" :: args) = Exited ob eb rc ->
  decode ob = Some out ->
  decode eb = Some err ->
  fst (_run_jira_command E args true log_command target w)
  = Return (mkCommandResult (lit "jira" :: args)
                            (rstrip (lstrip out)) (rstrip (lstrip err)) rc)
  /\ trimmed_of out (rstrip (lstrip out))
  /\ trimmed_of err (rstrip (lstrip err)).
Proof.
  intros Hos Hout Herr.
  rewrite (run_captured E _ log_command target _ _ _ _ _ _ Hos Hout Herr).
  repeat split; try reflexivity; apply strip_trimmed_of.
Qed.

Lemma result_texts_stripped_witness :
  let E := env_const (Exited (bytes_lit "  KEY-1 ") (bytes_lit " warn
") 0)
                     PressCancel in
  fst (_run_jira_command E [lit "issue"; lit "list"] true true None initial_world)
  = Return (mkCommandResult [lit "jira"; lit "issue"; lit "list"]
                            (lit "KEY-1") (lit "warn") 0).
Proof.
  intros E.
  assert (Hos : os E (count_execs (events initial_world))
                   (lit "jira" :: [lit "issue"; lit "list"])
                = Exited (bytes_lit "  KEY-1 ") (bytes_lit " warn
") 0) by reflexivity.
  assert (Hout : decode (bytes_lit "  KEY-1 ") = Some (lit "  KEY-1 "))
    by (vm_compute; reflexivity).
  assert (Herr : decode (bytes_lit " warn
") = Some (lit " warn
")) by (vm_compute; reflexivity).
  destruct (result_texts_stripped E _ true None _ _ _ _ _ _ Hos Hout Herr)
    as (Hr & _).
  rewrite Hr. vm_compute. reflexivity.
Defined.

(** C5 as stated fails on leading whitespace: trimming the end alone would
    keep the two leading spaces, the result does not have them. *)
Lemma result_texts_stripped_counterexample :
  let E := env_const (Exited (bytes_lit "  KEY-1") [] 0) PressCancel in
  let run := _run_jira_command E [lit "issue"; lit "list"] true true None
                               initial_world in
  decode (bytes_lit "  KEY-1") = Some (lit "  KEY-1")
  /\ rstrip (lit "  KEY-1") = lit "  KEY-1"
  /\ fst run = Return (mkCommandResult [lit "jira"; lit "issue"; lit "list"]
                                       (lit "KEY-1") [] 0)
  /\ lit "KEY-1" <> rstrip (lit "  KEY-1").
Proof.
  vm_compute. repeat split; discriminate.
Qed.

(** ** The configuration probe *)

Section Probe.

Variable E : Env.

(** [check_configuration] in terms of what its probe yields. *)
Lemma check_configuration_eq (w : World) :
  check_configuration E w
  = match _run_jira_command E [lit "me"] true true None
                            (with_status status_checking w) with
    | (Return r, w2) =>
        (Return tt,
         if (returncode r =? 0)%Z
         then logged (splitlines (stdout r))
                (with_status status_authenticated (with_configured true w2))
         else logged (splitlines (stderr r))
                (with_status status_missing (with_configured false w2)))
    | (Raise FileNotFoundError, w2) =>
        (Return tt,
         logged (splitlines install_hint)
           (with_status status_not_installed (with_configured false w2)))
    | (Raise UnicodeDecodeError, w2) => (Raise UnicodeDecodeError, w2)
    end.
Proof.
  unfold check_configuration.
  unfold bind at 1. unfold set_status at 1.
  change (mkWorld (log_lines w) (issue_list w) (issue_detail w)
            (lit "Checking jira-cli configuration…") (configured w)
            (events w ++ [EvStatus (lit "Checking jira-cli configuration…")]))
    with (with_status status_checking w).
  unfold bind at 1. unfold try_except_FileNotFoundError. unfold bind at 1.
  destruct (_run_jira_command E [lit "me"] true true None
              (with_status status_checking w)) as [[r|[|]] w2].
  - unfold ret at 1. destruct (returncode r =? 0)%Z.
    + unfold bind. simpl. rewrite _log_if_truthy, logged_if_truthy. reflexivity.
    + unfold bind. simpl. rewrite _log_if_truthy, logged_if_truthy. reflexivity.
  - unfold bind, set_configured, set_status. cbv beta iota.
    rewrite _log_eq. reflexivity.
  - reflexivity.
Qed.

Lemma count_execs_with_status (s : str) (w : World) :
  count_execs (events (with_status s w)) = count_execs (events w).
Proof.
  change (events (with_status s w)) with (events w ++ [EvStatus s]).
  rewrite count_execs_app. apply Nat.add_0_r.
Qed.

End Probe.

Section ProbeFields.

Variables (s : str) (v : bool) (p : PanelId) (w : World).

Lemma log_lines_with_status : log_lines (with_status s w) = log_lines w.
Proof. reflexivity. Qed.
Lemma events_with_status : events (with_status s w) = events w ++ [EvStatus s].
Proof. reflexivity. Qed.
Lemma status_with_status : status (with_status s w) = s.
Proof. reflexivity. Qed.
Lemma configured_with_status : configured (with_status s w) = configured w.
Proof. reflexivity. Qed.
Lemma panel_lines_with_status : panel_lines p (with_status s w) = panel_lines p w.
Proof. destruct p; reflexivity. Qed.

Lemma log_lines_with_configured : log_lines (with_configured v w) = log_lines w.
Proof. reflexivity. Qed.
Lemma events_with_configured :
  events (with_configured v w) = events w ++ [EvConfigured v].
Proof. reflexivity. Qed.
Lemma status_with_configured : status (with_configured v w) = status w.
Proof. reflexivity. Qed.
Lemma configured_with_configured : configured (with_configured v w) = v.
Proof. reflexivity. Qed.
Lemma panel_lines_with_configured :
  panel_lines p (with_configured v w) = panel_lines p w.
Proof. destruct p; reflexivity. Qed.

End ProbeFields.

#[export] Hint Rewrite
  log_lines_with_status events_with_status status_with_status
  configured_with_status panel_lines_with_status
  log_lines_with_configured events_with_configured status_with_configured
  configured_with_configured panel_lines_with_configured : world.

Lemma splitlines_install_hint : splitlines install_hint = [install_hint].
Proof. vm_compute. reflexivity. Qed.

Lemma splitlines_missing_binary_message :
  splitlines missing_binary_message = [missing_binary_message].
Proof. vm_compute. reflexivity. Qed.

Lemma splitlines_echo_me :
  splitlines (echo_line [lit "jira"; lit "me"]) = [lit "$ jira me"].
Proof. vm_compute. reflexivity. Qed.

(** C3, as the code has it. [check_configuration] sets the status to the
    checking text, then runs the probe [jira me] from that state. If the
    executable is missing, [configured] is false, the status says not
    installed and the installation hint is logged. If the process ends and
    both pipes hold UTF-8: with exit code 0, [configured] is true, the status
    says authenticated and the lines of a non-empty standard output are
    logged; with another exit code, [configured] is false, the status says
    the configuration is missing and the lines of a non-empty standard error
    are logged. If a pipe does not hold UTF-8, [UnicodeDecodeError] leaves
    the method, the status stays at the checking text and [configured] is
    untouched. *)
Theorem check_configuration_outcomes (E : Env) (w : World) :
  let w1 := with_status status_checking w in
  let probe := _run_jira_command E [lit "me"] true true None w1 in
  let final := check_configuration E w in
  status w1 = status_checking
  /\ (exists rest,
        events (snd final)
        = events w ++ [EvStatus status_checking; EvLogWrite (lit "$ jira me");
                       EvExec [lit "jira"; lit "me"] true] ++ rest)
  /\ match os E (count_execs (events w)) [lit "jira"; lit "me"] with
     | NotFound =>
         fst probe = Raise FileNotFoundError
         /\ fst final = Return tt
         /\ configured (snd final) = false
         /\ status (snd final) = status_not_installed
         /\ log_lines (snd final) = log_lines (snd probe) ++ [install_hint]
     | Exited ob eb rc =>
         match decode ob, decode eb with
         | Some out, Some err =>
             fst probe
             = Return (mkCommandResult [lit "jira"; lit "me"]
                                       (strip out) (strip err) rc)
             /\ fst final = Return tt
             /\ if (rc =? 0)%Z
                then configured (snd final) = true
                     /\ status (snd final) = status_authenticated
                     /\ log_lines (snd final)
                        = log_lines (snd probe)
                            ++ (if truthy (strip out)
                                then splitlines (strip out) else [])
                else configured (snd final) = false
                     /\ status (snd final) = status_missing
                     /\ log_lines (snd final)
                        = log_lines (snd probe)
                            ++ (if truthy (strip err)
                                then splitlines (strip err) else [])
         | _, _ =>
             final = (Raise UnicodeDecodeError, snd probe)
             /\ status (snd final) = status_checking
             /\ configured (snd final) = configured w
         end
     end.
Proof.
  intros w1 probe final. split; [reflexivity|].
  destruct (run_captured_events_prefix E [lit "me"] true None w1) as (rest & Hev).
  fold probe in Hev.
  change (lit "jira" :: [lit "me"]) with [lit "jira"; lit "me"] in Hev.
  rewrite splitlines_echo_me in Hev.
  assert (Hn : count_execs (events w1) = count_execs (events w))
    by apply count_execs_with_status.
  subst final. rewrite check_configuration_eq. fold w1. fold probe.
  destruct (os E (count_execs (events w)) [lit "jira"; lit "me"])
    as [|ob eb rc] eqn:Hos; rewrite <- Hn in Hos.
  - assert (Hp : fst probe = Raise FileNotFoundError).
    { subst probe. rewrite (run_missing_binary E _ _ _ _ _ Hos). reflexivity. }
    destruct probe as [res w2]; cbn [fst snd] in *. subst res. split.
    + eexists. fields. rewrite Hev. subst w1. fields. reflexivity.
    + fields. repeat split; reflexivity.
  - destruct (decode ob) as [out|] eqn:Hout;
      [destruct (decode eb) as [err|] eqn:Herr|].
    + assert (Hp : fst probe
                   = Return (mkCommandResult [lit "jira"; lit "me"]
                                             (strip out) (strip err) rc)).
      { subst probe.
        rewrite (run_captured E _ true None _ _ _ _ _ _ Hos Hout Herr).
        reflexivity. }
      destruct probe as [res w2]; cbn [fst snd] in *. subst res.
      cbn [returncode stdout stderr]. split.
      * destruct (rc =? 0)%Z; eexists; fields; rewrite Hev;
          subst w1; fields; reflexivity.
      * split; [reflexivity|]. split; [reflexivity|].
        destruct (rc =? 0)%Z; fields; repeat split; reflexivity.
    + assert (Hp : fst probe = Raise UnicodeDecodeError
                   /\ status (snd probe) = status_checking
                   /\ configured (snd probe) = configured w).
      { subst probe.
        rewrite (run_captured_bad_stderr E _ true None _ _ _ _ _ Hos Hout Herr).
        repeat split; reflexivity. }
      destruct probe as [res w2]; cbn [fst snd] in *.
      destruct Hp as (-> & Hst & Hcf). split.
      * eexists. cbn [snd]. rewrite Hev. subst w1. fields. reflexivity.
      * repeat split; assumption.
    + assert (Hp : fst probe = Raise UnicodeDecodeError
                   /\ status (snd probe) = status_checking
                   /\ configured (snd probe) = configured w).
      { subst probe.
        rewrite (run_captured_bad_stdout E _ true None _ _ _ _ Hos Hout).
        repeat split; reflexivity. }
      destruct probe as [res w2]; cbn [fst snd] in *.
      destruct Hp as (-> & Hst & Hcf). split.
      * eexists. cbn [snd]. rewrite Hev. subst w1. fields. reflexivity.
      * repeat split; assumption.
Qed.

(** C3 as stated fails when the probe's output is not UTF-8: the process
    ends with exit code 0, none of the three outcomes follows. *)
Lemma check_configuration_outcomes_counterexample :
  let E := env_const (Exited [xff] [] 0) PressCancel in
  let final := check_configuration E initial_world in
  decode [xff] = None
  /\ fst final = Raise UnicodeDecodeError
  /\ configured (snd final) = false
  /\ status (snd final) = status_checking
  /\ status (snd final) <> status_authenticated.
Proof. vm_compute. repeat split. discriminate. Qed.

(** C10. When the probe of [check_configuration] returns a result, the
    lines of its [stdout] reach the activity log twice if the exit code is
    0, once from [_run_jira_command] (no target panel, so they are routed to
    the log) and once more from [check_configuration]; with another exit
    code the same holds of the lines of its [stderr]. *)
Theorem probe_output_logged_twice
    (E : Env) (w w2 : World) (r : CommandResult) :
  _run_jira_command E [lit "me"] true true None (with_status status_checking w)
  = (Return r, w2) ->
  let final := snd (check_configuration E w) in
  if (returncode r =? 0)%Z
  then log_lines w2
       = log_lines w ++ [lit "$ jira me"]
           ++ splitlines (stdout r) ++ splitlines (stderr r)
       /\ log_lines final = log_lines w2 ++ splitlines (stdout r)
  else log_lines w2
       = log_lines w ++ [lit "$ jira me"]
           ++ splitlines (stdout r) ++ splitlines (stderr r)
           ++ splitlines (failure_message [lit "jira"; lit "me"] (returncode r))
       /\ log_lines final = log_lines w2 ++ splitlines (stderr r).
Proof.
  intros Hrun final. subst final. rewrite check_configuration_eq, Hrun.
  destruct (run_captured_inv _ _ _ _ _ _ _ Hrun)
    as (ob & eb & out & err & _ & _ & _ & Hr & Hw).
  change (lit "jira" :: [lit "me"]) with [lit "jira"; lit "me"] in *.
  rewrite Hr. cbn [returncode stdout stderr].
  rewrite Hw. unfold after_captured_run, reported.
  destruct (returncode r =? 0)%Z; fields; split; reflexivity.
Qed.

(** The probe answers with one line on the standard output and exit code
    0: the line is in the log twice. *)
Lemma probe_output_logged_twice_witness :
  let E := env_const (Exited (bytes_lit "Authenticated") [] 0) PressCancel in
  log_lines (snd (check_configuration E initial_world))
  = [lit "$ jira me"; lit "Authenticated"; lit "Authenticated"].
Proof.
  intros E.
  pose (r := mkCommandResult [lit "jira"; lit "me"] (lit "Authenticated") [] 0).
  pose (w2 := snd (_run_jira_command E [lit "me"] true true None
                     (with_status status_checking initial_world))).
  assert (Hrun : _run_jira_command E [lit "me"] true true None
                   (with_status status_checking initial_world) = (Return r, w2))
    by (vm_compute; reflexivity).
  pose proof (probe_output_logged_twice E initial_world w2 r Hrun) as H.
  change (returncode r =? 0)%Z with true in H. cbv zeta in H.
  destruct H as (H2 & Hf). rewrite Hf, H2. vm_compute. reflexivity.
Defined.

(** ** A missing executable *)

(** C4, as the code has it. When the executable is missing,
    [_run_jira_command] (captured or not) appends the diagnostic line to the
    activity log, shows it as an error on the target panel if there is one
    (one call of [show_error]), raises [FileNotFoundError] and leaves the
    status and [configured] as they were. The status is set to the
    not-installed text, and [configured] to false, by [check_configuration]
    alone, when the run is its probe. *)
Theorem missing_binary_reported
    (E : Env) (args : list str) (captured log_command : bool)
    (target : option PanelId) (w : World) :
  os E (count_execs (events w)) (lit "jira" :: args) = NotFound ->
  let run := _run_jira_command E args captured log_command target w in
  let echo :=
    if log_command then splitlines (echo_line (lit "jira" :: args)) else [] in
  fst run = Raise FileNotFoundError
  /\ log_lines (snd run) = log_lines w ++ echo ++ [missing_binary_message]
  /\ match target with
     | Some p =>
         panel_lines p (snd run) = [lit "Error: " ++ missing_binary_message]
         /\ exists new,
              events (snd run) = events w ++ new
              /\ filter (is_show_error p) new
                 = [EvPanel p (ShowError missing_binary_message)]
     | None =>
         issue_list (snd run) = issue_list w
         /\ issue_detail (snd run) = issue_detail w
     end
  /\ status (snd run) = status w
  /\ configured (snd run) = configured w
  /\ (args = [lit "me"] ->
      fst (check_configuration E w) = Return tt
      /\ status (snd (check_configuration E w)) = status_not_installed
      /\ configured (snd (check_configuration E w)) = false).
Proof.
  intros Hos run echo. subst run echo.
  rewrite (run_missing_binary E _ captured log_command target _ Hos).
  unfold after_missing_binary, reported.
  split; [reflexivity|]. split; [|split; [|split; [|split]]].
  - destruct target; fields; rewrite splitlines_missing_binary_message;
      reflexivity.
  - destruct target as [p|].
    + split.
      * fields. vm_compute. reflexivity.
      * eexists. split; [fields; reflexivity|].
        destruct p;
          repeat (rewrite filter_app || rewrite filter_show_error_log || simpl);
          reflexivity.
    + destruct log_command; split; reflexivity.
  - destruct target; fields; reflexivity.
  - destruct target; fields; reflexivity.
  - intros ->. rewrite check_configuration_eq.
    rewrite (run_missing_binary E [lit "me"] true true None).
    + repeat split; reflexivity.
    + rewrite count_execs_with_status. exact Hos.
Qed.

(** [jira issue list] for the issue list panel when [jira] is missing. *)
Lemma missing_binary_reported_witness :
  let E := env_const NotFound PressCancel in
  let run := _run_jira_command E [lit "issue"; lit "list"] true true
                               (Some IssueListPanel) initial_world in
  log_lines (snd run) = [lit "$ jira issue list"; missing_binary_message]
  /\ status (snd run) = status initial_world.
Proof.
  intros E run.
  assert (Hos : os E (count_execs (events initial_world))
                   (lit "jira" :: [lit "issue"; lit "list"]) = NotFound)
    by reflexivity.
  destruct (missing_binary_reported E _ true true (Some IssueListPanel) _ Hos)
    as (_ & Hl & _ & Hs & _).
  subst run. split; [rewrite Hl; vm_compute; reflexivity | exact Hs].
Defined.

(** C4 as stated fails outside the probe: after a successful
    [check_configuration], [action_my_issues] meets a missing executable;
    the log and the panel report it, the status still says authenticated
    and [configured] is still true. *)
Lemma missing_binary_reported_counterexample :
  let E := env_binary_removed in
  let w1 := snd (check_configuration E initial_world) in
  let w2 := snd (action_my_issues E w1) in
  status w1 = status_authenticated
  /\ fst (_run_jira_command E
            [lit "issue"; lit "list"; lit "--assignee"; lit "me";
             lit "--order-by"; lit "updated"; lit "--reverse"; lit "--plain"]
            true true (Some IssueListPanel)
            (shown IssueListPanel (lit "Loading issues assigned to you…") w1))
     = Raise FileNotFoundError
  /\ In missing_binary_message (log_lines w2)
  /\ issue_list w2 = [lit "Error: " ++ missing_binary_message]
  /\ status w2 = status_authenticated
  /\ status w2 <> status_not_installed
  /\ configured w2 = true.
Proof.
  vm_compute. repeat split; try discriminate.
  right. right. right. right. left. reflexivity.
Qed.

(** ** The input dialog *)

(** C6. The dialog yields no value when it is cancelled, and for a
    submitted text the Submit button and Enter yield the same: no value if
    the text is empty or whitespace only, otherwise the text without its
    leading and trailing whitespace. *)
Theorem input_dialog_normalises (value : str) :
  InputDialog_result PressCancel = None
  /\ InputDialog_result (PressSubmit value) = InputDialog_result (PressEnter value)
  /\ InputDialog_result (PressSubmit value)
     = (if forallb isspace value then None else Some (strip value))
  /\ trimmed_of value (strip value).
Proof.
  split; [reflexivity|]. split; [reflexivity|]. split.
  - simpl. rewrite truthy_strip. destruct (forallb isspace value); reflexivity.
  - apply strip_trimmed_of.
Qed.

Lemma InputDialog_result_nonempty (g : Gesture) (s : str) :
  InputDialog_result g = Some s -> s <> [].
Proof.
  destruct g as [|v|v]; simpl; [discriminate| |];
    destruct (strip v) eqn:Hv; simpl; intros H; inversion H; discriminate.
Qed.

(** ** Prompt chains *)

Lemma count_prompts_snoc (evs : list Event) (t q ph : str) :
  count_prompts (evs ++ [EvPrompt t q ph]) = count_prompts evs + 1.
Proof.
  unfold count_prompts. rewrite filter_app, length_app. reflexivity.
Qed.

Lemma _prompt_eq (E : Env) (t q : str) (ph : option str) (w : World) :
  _prompt E t q ph w
  = (Return (answer E w 0),
     recorded [EvPrompt t q (match ph with Some s => s | None => [] end)] w).
Proof.
  unfold _prompt, answer. rewrite Nat.add_0_r. simpl.
  destruct ph as [[|c s]|]; reflexivity.
Qed.

Lemma answer_after_prompt (E : Env) (w : World) (t q ph : str) (i : nat) :
  answer E (recorded [EvPrompt t q ph] w) i = answer E w (S i).
Proof.
  unfold answer. cbn [events recorded]. rewrite count_prompts_snoc.
  f_equal. f_equal. lia.
Qed.

Lemma recorded_recorded (xs ys : list Event) (w : World) :
  recorded ys (recorded xs w) = recorded (xs ++ ys) w.
Proof. unfold recorded. simpl. rewrite <- app_assoc. reflexivity. Qed.

(** C7. For search, view, comment and transition: if the [j]-th dialog of
    the action's chain is the first to yield no value, the action returns
    having opened the dialogs up to that one and done nothing else: no
    process is launched, no later dialog is opened, and the log, the panels,
    the status and [configured] are as before. *)
Theorem prompt_chain_aborts
    (E : Env) (a : PromptedAction) (w : World) (j : nat) :
  j < List.length (prompt_chain a) ->
  answer E w j = None ->
  (forall i, i < j -> answer E w i <> None) ->
  let w' := snd (run_action E a w) in
  run_action E a w = (Return tt, recorded (firstn (S j) (prompt_chain a)) w)
  /\ events w' = events w ++ firstn (S j) (prompt_chain a)
  /\ count_execs (events w') = count_execs (events w)
  /\ log_lines w' = log_lines w
  /\ issue_list w' = issue_list w
  /\ issue_detail w' = issue_detail w
  /\ status w' = status w
  /\ configured w' = configured w.
Proof.
  intros Hj Hnone Hsome w'.
  assert (Hrun : run_action E a w
                 = (Return tt, recorded (firstn (S j) (prompt_chain a)) w)).
  { destruct j as [|[|j]].
    - destruct a; simpl; unfold action_search, action_view_issue,
        action_comment_issue, action_transition_issue;
        unfold bind at 1; rewrite _prompt_eq, Hnone; reflexivity.
    - assert (H0 : answer E w 0 <> None) by (apply Hsome; lia).
      destruct (answer E w 0) as [key|] eqn:Hkey; [clear H0|congruence].
      pose proof (InputDialog_result_nonempty _ _ Hkey) as Hne.
      destruct key as [|c key]; [congruence|].
      destruct a; simpl in Hj; try lia; simpl;
        unfold action_comment_issue, action_transition_issue;
        unfold bind at 1; rewrite _prompt_eq, Hkey;
        unfold bind at 1; rewrite _prompt_eq, answer_after_prompt, Hnone;
        unfold ret; rewrite recorded_recorded; reflexivity.
    - destruct a; simpl in Hj; lia. }
  subst w'. rewrite Hrun. cbn [snd].
  split; [reflexivity|]. split; [reflexivity|]. split.
  - cbn [events recorded]. rewrite count_execs_app.
    assert (Hz : forall n, count_execs (firstn n (prompt_chain a)) = 0).
    { intros n. destruct a; destruct n as [|[|[|n]]]; reflexivity. }
    rewrite Hz. apply Nat.add_0_r.
  - repeat split; reflexivity.
Qed.

(** Commenting: a key is submitted, then the body dialog is cancelled. *)
Lemma prompt_chain_aborts_witness :
  events (snd (action_comment_issue env_key_then_cancel initial_world))
  = [EvPrompt (lit "Add Comment") (lit "Issue key") (lit "ABC-123");
     EvPrompt (lit "Add Comment") (lit "Comment body") []].
Proof.
  assert (Hj : 1 < List.length (prompt_chain CommentIssue)) by (simpl; lia).
  assert (Hnone : answer env_key_then_cancel initial_world 1 = None)
    by reflexivity.
  assert (Hsome : forall i, i < 1 ->
                    answer env_key_then_cancel initial_world i <> None).
  { intros i Hi. assert (i = 0) as -> by lia. vm_compute. discriminate. }
  destruct (prompt_chain_aborts env_key_then_cancel CommentIssue initial_world 1
              Hj Hnone Hsome) as (_ & Hev & _).
  exact Hev.
Defined.

(** ** Panels *)


(** The two calls of the specification's own example, and the empty
    message. *)
Example display_output_examples :
  issue_list (snd (display_output IssueListPanel (lit "   ") initial_world))
  = [lit "No data returned."]
  /\ issue_list (snd (display_output IssueListPanel (lit "ISSUE-1
ISSUE-2") initial_world))
     = [lit "ISSUE-1"; lit "ISSUE-2"]
  /\ issue_list (snd (show_message IssueListPanel [] initial_world)) = [[]].
Proof. vm_compute. repeat split. Qed.


(** * Beyond the specification's claims *)

(** ** The command runner, every outcome *)

Section RunnerOutcomes.

Variable E : Env.

(** A run without capture never looks at what the process wrote. *)
Lemma run_uncaptured
    (args : list str) (log_command : bool) (target : option PanelId)
    (w : World) (ob eb : bytes) (rc : Z) :
  os E (count_execs (events w)) (lit "jira" :: args) = Exited ob eb rc ->
  _run_jira_command E args false log_command target w
  = (Return (mkCommandResult (lit "jira" :: args) [] [] rc),
     after_uncaptured_run (lit "jira" :: args) log_command target rc w).
Proof.
  intros Hos. unfold _run_jira_command, after_uncaptured_run.
  unfold bind at 1. rewrite echo_eq.
  unfold bind at 1.
  unfold try_except_FileNotFoundError, create_subprocess_exec.
  rewrite count_execs_echo, Hos. simpl.
  unfold bind at 1. unfold ok. simpl.
  destruct (rc =? 0)%Z; simpl.
  - reflexivity.
  - rewrite _handle_command_failure_eq. reflexivity.
Qed.

Lemma run_outcome
    (args : list str) (captured log_command : bool)
    (target : option PanelId) (w : World) :
  RunOutcome E args captured log_command target w
    (_run_jira_command E args captured log_command target w).
Proof.
  destruct (os E (count_execs (events w)) (lit "jira" :: args))
    as [|ob eb rc] eqn:Hos.
  - rewrite (run_missing_binary E _ _ _ _ _ Hos). apply RunMissing, Hos.
  - destruct captured.
    + destruct (decode ob) as [out|] eqn:Hout;
        [destruct (decode eb) as [err|] eqn:Herr|].
      * rewrite (run_captured E _ _ _ _ _ _ _ _ _ Hos Hout Herr).
        eapply RunCaptured; eauto.
      * rewrite (run_captured_bad_stderr E _ _ _ _ _ _ _ _ Hos Hout Herr).
        eapply RunDecodeError; eauto.
      * rewrite (run_captured_bad_stdout E _ _ _ _ _ _ _ Hos Hout).
        eapply RunDecodeError; eauto.
    + rewrite (run_uncaptured _ _ _ _ _ _ _ Hos).
      eapply RunUncaptured; eauto.
Qed.

End RunnerOutcomes.

Section RunnerFacts.

Lemma count_execs_cons (e : Event) (evs : list Event) :
  count_execs (e :: evs)
  = (match e with EvExec _ _ => 1 | _ => 0 end) + count_execs evs.
Proof. destruct e; reflexivity. Qed.

Lemma count_execs_nil : count_execs [] = 0.
Proof. reflexivity. Qed.

Lemma error_lines_nonempty (message : str) :
  or_lines (splitlines (lit "Error: " ++ message)) [[]]
  = splitlines (lit "Error: " ++ message).
Proof.
  assert (H : splitlines (lit "Error: " ++ message) <> []).
  { apply splitlines_clean_nonempty.
    - destruct (lit "Error: ") eqn:Hl; [vm_compute in Hl|]; discriminate.
    - destruct (lit "Error: ") as [|c l] eqn:Hl; vm_compute in Hl;
        [discriminate|]. injection Hl as <- _. reflexivity. }
  destruct (splitlines (lit "Error: " ++ message)); [congruence | reflexivity].
Qed.

End RunnerFacts.

Ltac count_execs_zero :=
  repeat first [ rewrite count_execs_app
               | rewrite count_execs_log
               | rewrite count_execs_cons
               | rewrite count_execs_nil ];
  lia.

(** X1. A run without capture returns a result with empty [stdout] and
    [stderr] whatever the process wrote, valid UTF-8 or not: nothing is
    decoded and nothing is routed. The log gains the echoed command and, if
    the return code is not 0, the lines of the failure message; with return
    code 0 both panels are untouched. *)
Theorem uncaptured_run_ignores_output
    (E : Env) (args : list str) (log_command : bool)
    (target : option PanelId) (w : World) (ob eb : bytes) (rc : Z) :
  os E (count_execs (events w)) (lit "jira" :: args) = Exited ob eb rc ->
  let run := _run_jira_command E args false log_command target w in
  let echo :=
    if log_command then splitlines (echo_line (lit "jira" :: args)) else [] in
  fst run = Return (mkCommandResult (lit "jira" :: args) [] [] rc)
  /\ log_lines (snd run)
     = log_lines w ++ echo
         ++ (if (rc =? 0)%Z then []
             else splitlines (failure_message (lit "jira" :: args) rc))
  /\ (rc = 0%Z ->
      issue_list (snd run) = issue_list w
      /\ issue_detail (snd run) = issue_detail w).
Proof.
  intros Hos run echo. subst run echo.
  rewrite (run_uncaptured E _ _ _ _ _ _ _ Hos).
  unfold after_uncaptured_run, reported. split; [reflexivity|]. split.
  - destruct (rc =? 0)%Z, target; fields; rewrite ?app_nil_r; reflexivity.
  - intros ->. destruct log_command; split; reflexivity.
Qed.

Lemma uncaptured_run_ignores_output_witness :
  let E := env_const (Exited [xff] (bytes_lit "noise") 0) PressCancel in
  let run := _run_jira_command E [lit "init"] false true None initial_world in
  fst run = Return (mkCommandResult [lit "jira"; lit "init"] [] [] 0)
  /\ log_lines (snd run) = [lit "$ jira init"].
Proof.
  intros E run.
  assert (Hos : os E (count_execs (events initial_world))
                   (lit "jira" :: [lit "init"])
                = Exited [xff] (bytes_lit "noise") 0) by reflexivity.
  destruct (uncaptured_run_ignores_output E _ true None _ _ _ _ Hos)
    as (Hr & Hl & _).
  subst run. split; [exact Hr | rewrite Hl; vm_compute; reflexivity].
Defined.

Lemma run_events_shape
    (E : Env) (args : list str) (captured log_command : bool)
    (target : option PanelId) (w : World) :
  let run := _run_jira_command E args captured log_command target w in
  let echo :=
    if log_command then splitlines (echo_line (lit "jira" :: args)) else [] in
  exists rest,
    events (snd run)
    = events w ++ map EvLogWrite echo
        ++ [EvExec (lit "jira" :: args) captured] ++ rest
    /\ count_execs rest = 0
    /\ count_execs (events (snd run)) = S (count_execs (events w)).
Proof.
  intros run echo. subst run echo.
  destruct (run_outcome E args captured log_command target w)
    as [Hos | ob eb rc out err -> Hos Hout Herr | ob eb rc -> Hos Hbad
        | ob eb rc -> Hos];
    unfold after_missing_binary, after_captured_run, after_decode_error,
      after_uncaptured_run, reported.
  - destruct target; eexists; (split; [fields; reflexivity|]);
      (split; [count_execs_zero|]); fields; count_execs_zero.
  - destruct (rc =? 0)%Z, target, (truthy (strip out));
      eexists; (split; [fields; reflexivity|]);
      (split; [count_execs_zero|]); fields; count_execs_zero.
  - exists []. split; [fields; reflexivity|].
    split; [reflexivity|]. fields. count_execs_zero.
  - destruct (rc =? 0)%Z, target;
      eexists; (split; [fields; reflexivity|]);
      (split; [count_execs_zero|]); fields; count_execs_zero.
Qed.

(** X2. Every call of [_run_jira_command], whatever its mode and however
    it ends, launches exactly one process: [jira] followed by the arguments
    as given, after the echo of the command and before anything else. *)
Theorem run_launches_exactly_once
    (E : Env) (args : list str) (captured log_command : bool)
    (target : option PanelId) (w : World) :
  let run := _run_jira_command E args captured log_command target w in
  let echo :=
    if log_command then splitlines (echo_line (lit "jira" :: args)) else [] in
  exists rest,
    events (snd run)
    = events w ++ map EvLogWrite echo
        ++ [EvExec (lit "jira" :: args) captured] ++ rest
    /\ count_execs rest = 0
    /\ count_execs (events (snd run)) = S (count_execs (events w)).
Proof.
  intros run echo. subst run echo.
  destruct (run_outcome E args captured log_command target w)
    as [Hos | ob eb rc out err -> Hos Hout Herr | ob eb rc -> Hos Hbad
        | ob eb rc -> Hos];
    unfold after_missing_binary, after_captured_run, after_decode_error,
      after_uncaptured_run, reported.
  - destruct target; eexists; (split; [fields; reflexivity|]);
      (split; [count_execs_zero|]); fields; count_execs_zero.
  - destruct (rc =? 0)%Z, target, (truthy (strip out));
      eexists; (split; [fields; reflexivity|]);
      (split; [count_execs_zero|]); fields; count_execs_zero.
  - exists []. split; [fields; reflexivity|].
    split; [reflexivity|]. fields. count_execs_zero.
  - destruct (rc =? 0)%Z, target;
      eexists; (split; [fields; reflexivity|]);
      (split; [count_execs_zero|]); fields; count_execs_zero.
Qed.

Section PanelFrame.

Lemma other_panel_with_panel (p : PanelId) (ls : list str) (w : World) :
  panel_lines (other_panel p) (with_panel p ls w) = panel_lines (other_panel p) w.
Proof. destruct p; reflexivity. Qed.

Lemma other_panel_shown (p : PanelId) (m : str) (w : World) :
  panel_lines (other_panel p) (shown p m w) = panel_lines (other_panel p) w.
Proof. destruct p; reflexivity. Qed.

Lemma other_panel_errored (p : PanelId) (m : str) (w : World) :
  panel_lines (other_panel p) (errored p m w) = panel_lines (other_panel p) w.
Proof. destruct p; reflexivity. Qed.

Lemma other_panel_displayed (p : PanelId) (m : str) (w : World) :
  panel_lines (other_panel p) (displayed p m w) = panel_lines (other_panel p) w.
Proof. destruct p; reflexivity. Qed.

End PanelFrame.

#[export] Hint Rewrite
  other_panel_with_panel other_panel_shown other_panel_errored
  other_panel_displayed : world.

Lemma run_frame
    (E : Env) (args : list str) (captured log_command : bool)
    (target : option PanelId) (w : World) :
  let w' := snd (_run_jira_command E args captured log_command target w) in
  status w' = status w
  /\ configured w' = configured w
  /\ match target with
     | Some p => panel_lines (other_panel p) w' = panel_lines (other_panel p) w
     | None => issue_list w' = issue_list w /\ issue_detail w' = issue_detail w
     end.
Proof.
  intros w'. subst w'.
  destruct (run_outcome E args captured log_command target w)
    as [Hos | ob eb rc out err -> Hos Hout Herr | ob eb rc -> Hos Hbad
        | ob eb rc -> Hos];
    unfold after_missing_binary, after_captured_run, after_decode_error,
      after_uncaptured_run, reported; cbn [snd].
  - destruct target, log_command; fields; repeat split; reflexivity.
  - destruct (rc =? 0)%Z, target, (truthy (strip out)), log_command; fields;
      repeat split; reflexivity.
  - destruct target, log_command; fields; repeat split; reflexivity.
  - destruct (rc =? 0)%Z, target, log_command; fields; repeat split; reflexivity.
Qed.

(** X3. However a run of [_run_jira_command] ends, it leaves the status
    and [configured] as they were, and writes to no panel but its target:
    with a target the other panel keeps its lines, without one both do. *)
Theorem run_touches_only_its_target
    (E : Env) (args : list str) (captured log_command : bool)
    (target : option PanelId) (w : World) :
  let w' := snd (_run_jira_command E args captured log_command target w) in
  status w' = status w
  /\ configured w' = configured w
  /\ match target with
     | Some p => panel_lines (other_panel p) w' = panel_lines (other_panel p) w
     | None => issue_list w' = issue_list w /\ issue_detail w' = issue_detail w
     end.
Proof.
  intros w'. subst w'.
  destruct (run_outcome E args captured log_command target w)
    as [Hos | ob eb rc out err -> Hos Hout Herr | ob eb rc -> Hos Hbad
        | ob eb rc -> Hos];
    unfold after_missing_binary, after_captured_run, after_decode_error,
      after_uncaptured_run, reported; cbn [snd].
  - destruct target, log_command; fields; repeat split; reflexivity.
  - destruct (rc =? 0)%Z, target, (truthy (strip out)), log_command; fields;
      repeat split; reflexivity.
  - destruct target, log_command; fields; repeat split; reflexivity.
  - destruct (rc =? 0)%Z, target, log_command; fields; repeat split; reflexivity.
Qed.



(** X5. If the process of a captured run ends but one of its pipes is not
    UTF-8, the run raises [UnicodeDecodeError] right after the launch:
    the log holds the echo and nothing more (no output, and no failure
    message even for a non-zero return code), and no panel is written. *)
Theorem decode_error_stops_routing
    (E : Env) (args : list str) (log_command : bool)
    (target : option PanelId) (w : World) (ob eb : bytes) (rc : Z) :
  os E (count_execs (events w)) (lit "jira" :: args) = Exited ob eb rc ->
  decode ob = None \/ decode eb = None ->
  let run := _run_jira_command E args true log_command target w in
  let echo :=
    if log_command then splitlines (echo_line (lit "jira" :: args)) else [] in
  fst run = Raise UnicodeDecodeError
  /\ log_lines (snd run) = log_lines w ++ echo
  /\ events (snd run)
     = events w ++ map EvLogWrite echo ++ [EvExec (lit "jira" :: args) true]
  /\ issue_list (snd run) = issue_list w
  /\ issue_detail (snd run) = issue_detail w.
Proof.
  intros Hos Hbad run echo. subst run echo.
  assert (Hrun : _run_jira_command E args true log_command target w
                 = (Raise UnicodeDecodeError,
                    after_decode_error (lit "jira" :: args) log_command w)).
  { destruct (decode ob) as [out|] eqn:Hout.
    - destruct Hbad as [Hbad|Hbad]; [discriminate|].
      apply (run_captured_bad_stderr E _ _ _ _ _ _ _ _ Hos Hout Hbad).
    - apply (run_captured_bad_stdout E _ _ _ _ _ _ _ Hos Hout). }
  rewrite Hrun. unfold after_decode_error.
  destruct log_command; fields; rewrite ?app_nil_r; repeat split; reflexivity.
Qed.

Lemma decode_error_stops_routing_witness :
  let E := env_const (Exited (bytes_lit "KEY-1") [xff] 1) PressCancel in
  let run := _run_jira_command E [lit "issue"; lit "list"] true true
                               (Some IssueListPanel) initial_world in
  fst run = Raise UnicodeDecodeError
  /\ log_lines (snd run) = [lit "$ jira issue list"]
  /\ issue_list (snd run) = issue_list initial_world.
Proof.
  intros E run.
  assert (Hos : os E (count_execs (events initial_world))
                   (lit "jira" :: [lit "issue"; lit "list"])
                = Exited (bytes_lit "KEY-1") [xff] 1) by reflexivity.
  assert (Hbad : decode (bytes_lit "KEY-1") = None \/ decode [xff] = None)
    by (right; reflexivity).
  destruct (decode_error_stops_routing E _ true (Some IssueListPanel) _ _ _ _
              Hos Hbad) as (Hr & Hl & _ & Hp & _).
  subst run. split; [exact Hr|]. split; [|exact Hp].
  rewrite Hl. vm_compute. reflexivity.
Defined.

(** ** The log and the record of calls only grow *)

Section Monotone.

Lemma extends_refl (w : World) : extends w w.
Proof. exists [], []. rewrite !app_nil_r. split; reflexivity. Qed.

Lemma extends_trans (w1 w2 w3 : World) :
  extends w1 w2 -> extends w2 w3 -> extends w1 w3.
Proof.
  intros (l1 & e1 & Hl1 & He1) (l2 & e2 & Hl2 & He2).
  exists (l1 ++ l2), (e1 ++ e2).
  rewrite Hl2, He2, Hl1, He1, <- !app_assoc. split; reflexivity.
Qed.

Lemma monotone_ret {A} (a : A) : monotone (ret a).
Proof. intros w. apply extends_refl. Qed.

Lemma monotone_raise {A} (e : Exn) : monotone (@raise A e).
Proof. intros w. apply extends_refl. Qed.

Lemma monotone_bind {A B} (m : M A) (k : A -> M B) :
  monotone m -> (forall a, monotone (k a)) -> monotone (bind m k).
Proof.
  intros Hm Hk w. unfold bind. specialize (Hm w).
  destruct (m w) as [[a|e] w1]; cbn [snd] in *.
  - eapply extends_trans; [exact Hm | apply Hk].
  - exact Hm.
Qed.

Lemma monotone_try {A} (body handler : M A) :
  monotone body -> monotone handler ->
  monotone (try_except_FileNotFoundError body handler).
Proof.
  intros Hb Hh w. unfold try_except_FileNotFoundError. specialize (Hb w).
  destruct (body w) as [[a|[|]] w1]; cbn [snd] in *; try exact Hb.
  eapply extends_trans; [exact Hb | apply Hh].
Qed.

Lemma monotone_for_each {A} (xs : list A) (body : A -> M unit) :
  (forall x, monotone (body x)) -> monotone (for_each xs body).
Proof.
  intros Hb. induction xs as [|x xs IH]; simpl.
  - apply monotone_ret.
  - apply monotone_bind; [apply Hb | intros _; exact IH].
Qed.

Lemma monotone_if {A} (c : bool) (m1 m2 : M A) :
  monotone m1 -> monotone m2 -> monotone (if c then m1 else m2).
Proof. destruct c; auto. Qed.

Lemma monotone_emit (e : Event) : monotone (emit e).
Proof. intros w. exists [], [e]. simpl. rewrite app_nil_r. split; reflexivity. Qed.

Lemma monotone_log_widget_write (line : str) : monotone (log_widget_write line).
Proof. intros w. exists [line], [EvLogWrite line]. split; reflexivity. Qed.

Lemma monotone_set_panel (p : PanelId) (f : list str -> list str) :
  monotone (set_panel p f).
Proof.
  intros w. exists [], []. destruct p; simpl; rewrite !app_nil_r;
    split; reflexivity.
Qed.

Lemma monotone_set_status (s : str) : monotone (set_status s).
Proof. intros w. exists [], [EvStatus s]. simpl. rewrite app_nil_r. split; reflexivity. Qed.

Lemma monotone_set_configured (v : bool) : monotone (set_configured v).
Proof.
  intros w. exists [], [EvConfigured v]. simpl. rewrite app_nil_r.
  split; reflexivity.
Qed.

Lemma monotone_log (message : str) : monotone (_log message).
Proof. apply monotone_for_each, monotone_log_widget_write. Qed.

Lemma monotone_show_message (p : PanelId) (m : str) : monotone (show_message p m).
Proof.
  unfold show_message. apply monotone_bind; [apply monotone_emit|]. intros _.
  apply monotone_bind; [apply monotone_set_panel|]. intros _.
  apply monotone_for_each. intros x. apply monotone_set_panel.
Qed.

Lemma monotone_show_error (p : PanelId) (m : str) : monotone (show_error p m).
Proof.
  unfold show_error. apply monotone_bind; [apply monotone_emit|]. intros _.
  apply monotone_show_message.
Qed.

Lemma monotone_display_output (p : PanelId) (o : str) :
  monotone (display_output p o).
Proof.
  unfold display_output. apply monotone_bind; [apply monotone_emit|]. intros _.
  apply monotone_show_message.
Qed.

Variable E : Env.

Lemma monotone_create_subprocess_exec (cmd : list str) (captured : bool) :
  monotone (create_subprocess_exec E cmd captured).
Proof.
  intros w. unfold create_subprocess_exec. cbv zeta.
  pose proof (monotone_emit (EvExec cmd captured) w) as H.
  destruct (emit (EvExec cmd captured) w) as [u w1].
  destruct (os E _ cmd); exact H.
Qed.

Lemma monotone_bytes_decode (bs : bytes) : monotone (bytes_decode bs).
Proof.
  unfold bytes_decode. destruct (decode bs);
    [apply monotone_ret | apply monotone_raise].
Qed.

Lemma monotone_report (message : str) (target : option PanelId) :
  monotone (_log message ;;
            match target with
            | Some p => show_error p message
            | None => ret tt
            end).
Proof.
  apply monotone_bind; [apply monotone_log|]. intros _.
  destruct target; [apply monotone_show_error | apply monotone_ret].
Qed.

Lemma monotone_run
    (args : list str) (captured log_command : bool) (target : option PanelId) :
  monotone (_run_jira_command E args captured log_command target).
Proof.
  unfold _run_jira_command.
  apply monotone_bind;
    [apply monotone_if; [apply monotone_log | apply monotone_ret]|].
  intros _. destruct captured.
  - apply monotone_bind.
    { apply monotone_try; [apply monotone_create_subprocess_exec|].
      apply monotone_bind; [apply monotone_report|].
      intros _. apply monotone_raise. }
    intros process.
    apply monotone_bind; [apply monotone_bytes_decode|]. intros out.
    apply monotone_bind; [apply monotone_bytes_decode|]. intros err.
    apply monotone_bind.
    { apply monotone_if; [|apply monotone_ret].
      destruct target; [apply monotone_display_output | apply monotone_log]. }
    intros _.
    apply monotone_bind;
      [apply monotone_if; [apply monotone_log | apply monotone_ret]|].
    intros _.
    apply monotone_bind;
      [apply monotone_if; [apply monotone_report | apply monotone_ret]|].
    intros _. apply monotone_ret.
  - apply monotone_bind.
    { apply monotone_try; [apply monotone_create_subprocess_exec|].
      apply monotone_bind; [apply monotone_report|].
      intros _. apply monotone_raise. }
    intros process.
    apply monotone_bind;
      [apply monotone_if; [apply monotone_report | apply monotone_ret]|].
    intros _. apply monotone_ret.
Qed.

Lemma monotone_check_configuration : monotone (check_configuration E).
Proof.
  unfold check_configuration.
  apply monotone_bind; [apply monotone_set_status|]. intros _.
  apply monotone_bind.
  { apply monotone_try.
    - apply monotone_bind; [apply monotone_run|]. intros r. apply monotone_ret.
    - apply monotone_bind; [apply monotone_set_configured|]. intros _.
      apply monotone_bind; [apply monotone_set_status|]. intros _.
      apply monotone_bind; [apply monotone_log|]. intros _.
      apply monotone_ret. }
  intros [r|]; [|apply monotone_ret].
  apply monotone_if;
    (apply monotone_bind; [apply monotone_set_configured|]; intros _;
     apply monotone_bind; [apply monotone_set_status|]; intros _;
     apply monotone_if; [apply monotone_log | apply monotone_ret]).
Qed.

Lemma monotone_prompt (t q : str) (ph : option str) : monotone (_prompt E t q ph).
Proof.
  intros w. unfold _prompt. cbv zeta.
  match goal with
  | |- context [emit ?e w] =>
      pose proof (monotone_emit e w) as H; destruct (emit e w) as [u w1]
  end.
  exact H.
Qed.

Lemma monotone_run_or_return (run : M CommandResult) :
  monotone run -> monotone (run_or_return run).
Proof.
  intros H. unfold run_or_return. apply monotone_try; [|apply monotone_ret].
  apply monotone_bind; [exact H|]. intros r. apply monotone_ret.
Qed.

Lemma monotone_action_my_issues : monotone (action_my_issues E).
Proof.
  unfold action_my_issues.
  apply monotone_bind; [apply monotone_show_message|]. intros _.
  apply monotone_bind; [apply monotone_run_or_return, monotone_run|].
  intros [r|]; [|apply monotone_ret].
  apply monotone_if; [apply monotone_show_message | apply monotone_ret].
Qed.

Lemma monotone_run_action (a : PromptedAction) : monotone (run_action E a).
Proof.
  destruct a; unfold run_action;
    unfold action_search, action_view_issue, action_comment_issue,
      action_transition_issue;
    (apply monotone_bind; [apply monotone_prompt|]);
    intros [[|c key]|]; try apply monotone_ret.
  - apply monotone_bind; [apply monotone_run_or_return, monotone_run|].
    intros _. apply monotone_ret.
  - apply monotone_bind; [apply monotone_show_message|]. intros _.
    apply monotone_bind; [apply monotone_run_or_return, monotone_run|].
    intros _. apply monotone_ret.
  - apply monotone_bind; [apply monotone_prompt|].
    intros [[|d body]|]; try apply monotone_ret.
    apply monotone_bind; [apply monotone_run_or_return, monotone_run|].
    intros [r|]; [|apply monotone_ret].
    apply monotone_if; [apply monotone_log | apply monotone_ret].
  - apply monotone_bind; [apply monotone_prompt|].
    intros [[|d state]|]; try apply monotone_ret.
    apply monotone_bind; [apply monotone_run_or_return, monotone_run|].
    intros [r|]; [|apply monotone_ret].
    apply monotone_if; [apply monotone_log | apply monotone_ret].
Qed.

End Monotone.

Lemma monotone_action_show_help : monotone action_show_help.
Proof. unfold action_show_help. cbv zeta. apply monotone_log. Qed.

Lemma snd_forget {A} (r : Res A * World) : snd (forget r) = snd r.
Proof. reflexivity. Qed.


(** ** Which exceptions get out *)

Section Containment.

Lemma contains_ret {A} (a : A) : contains_missing_binary (ret a).
Proof. intros w. discriminate. Qed.

Lemma contains_bind {A B} (m : M A) (k : A -> M B) :
  contains_missing_binary m -> (forall a, contains_missing_binary (k a)) ->
  contains_missing_binary (bind m k).
Proof.
  intros Hm Hk w. unfold bind. specialize (Hm w).
  destruct (m w) as [[a|e] w1]; cbn [fst] in *.
  - apply Hk.
  - intros H. apply Hm. injection H as ->. reflexivity.
Qed.

Lemma contains_try {A} (body handler : M A) :
  contains_missing_binary handler ->
  contains_missing_binary (try_except_FileNotFoundError body handler).
Proof.
  intros Hh w. unfold try_except_FileNotFoundError.
  destruct (body w) as [[a|[|]] w1]; cbn [fst]; try discriminate.
  apply Hh.
Qed.

Lemma contains_for_each {A} (xs : list A) (body : A -> M unit) :
  (forall x, contains_missing_binary (body x)) ->
  contains_missing_binary (for_each xs body).
Proof.
  intros Hb. induction xs as [|x xs IH]; simpl.
  - apply contains_ret.
  - apply contains_bind; [apply Hb | intros _; exact IH].
Qed.

Lemma contains_if {A} (c : bool) (m1 m2 : M A) :
  contains_missing_binary m1 -> contains_missing_binary m2 ->
  contains_missing_binary (if c then m1 else m2).
Proof. destruct c; auto. Qed.

Lemma contains_log (message : str) : contains_missing_binary (_log message).
Proof. apply contains_for_each. intros x w. discriminate. Qed.

Lemma contains_show_message (p : PanelId) (m : str) :
  contains_missing_binary (show_message p m).
Proof. intros w. rewrite show_message_eq. discriminate. Qed.

Lemma contains_show_error (p : PanelId) (m : str) :
  contains_missing_binary (show_error p m).
Proof. intros w. rewrite show_error_eq. discriminate. Qed.

Lemma contains_display_output (p : PanelId) (o : str) :
  contains_missing_binary (display_output p o).
Proof. intros w. rewrite display_output_eq. discriminate. Qed.

Lemma contains_set_status (s : str) : contains_missing_binary (set_status s).
Proof. intros w. discriminate. Qed.

Lemma contains_set_configured (v : bool) :
  contains_missing_binary (set_configured v).
Proof. intros w. discriminate. Qed.

Variable E : Env.

Lemma contains_prompt (t q : str) (ph : option str) :
  contains_missing_binary (_prompt E t q ph).
Proof. intros w. rewrite _prompt_eq. discriminate. Qed.

Lemma contains_run_or_return (run : M CommandResult) :
  contains_missing_binary (run_or_return run).
Proof. apply contains_try, contains_ret. Qed.

Lemma contains_check_configuration :
  contains_missing_binary (check_configuration E).
Proof.
  unfold check_configuration.
  apply contains_bind; [apply contains_set_status|]. intros _.
  apply contains_bind.
  { apply contains_try.
    apply contains_bind; [apply contains_set_configured|]. intros _.
    apply contains_bind; [apply contains_set_status|]. intros _.
    apply contains_bind; [apply contains_log|]. intros _.
    apply contains_ret. }
  intros [r|]; [|apply contains_ret].
  apply contains_if;
    (apply contains_bind; [apply contains_set_configured|]; intros _;
     apply contains_bind; [apply contains_set_status|]; intros _;
     apply contains_if; [apply contains_log | apply contains_ret]).
Qed.

Lemma contains_action_my_issues : contains_missing_binary (action_my_issues E).
Proof.
  unfold action_my_issues.
  apply contains_bind; [apply contains_show_message|]. intros _.
  apply contains_bind; [apply contains_run_or_return|].
  intros [r|]; [|apply contains_ret].
  apply contains_if; [apply contains_show_message | apply contains_ret].
Qed.

Lemma contains_run_action (a : PromptedAction) :
  contains_missing_binary (run_action E a).
Proof.
  destruct a; unfold run_action;
    unfold action_search, action_view_issue, action_comment_issue,
      action_transition_issue;
    (apply contains_bind; [apply contains_prompt|]);
    intros [[|c key]|]; try apply contains_ret.
  - apply contains_bind; [apply contains_run_or_return|].
    intros _. apply contains_ret.
  - apply contains_bind; [apply contains_show_message|]. intros _.
    apply contains_bind; [apply contains_run_or_return|].
    intros _. apply contains_ret.
  - apply contains_bind; [apply contains_prompt|].
    intros [[|d body]|]; try apply contains_ret.
    apply contains_bind; [apply contains_run_or_return|].
    intros [r|]; [|apply contains_ret].
    apply contains_if; [apply contains_log | apply contains_ret].
  - apply contains_bind; [apply contains_prompt|].
    intros [[|d state]|]; try apply contains_ret.
    apply contains_bind; [apply contains_run_or_return|].
    intros [r|]; [|apply contains_ret].
    apply contains_if; [apply contains_log | apply contains_ret].
Qed.

Lemma contains_action_show_help : contains_missing_binary action_show_help.
Proof. unfold action_show_help. cbv zeta. apply contains_log. Qed.

End Containment.

Lemma fst_forget {A} (r : Res A * World) (e : Exn) :
  fst (forget r) = Some e -> fst r = Raise e.
Proof.
  destruct r as [[a|e'] w]; cbn; [discriminate|].
  intros H. injection H as ->. reflexivity.
Qed.

(** X7. [FileNotFoundError] leaves nothing but [_run_jira_command]
    itself, and that only when the executable is missing: the probe and
    every action catch it and return, and the panel methods and the help
    never raise it. *)
Theorem missing_binary_is_contained
    (E : Env) (op : Operation) (w : World) :
  fst (perform E op w) = Some FileNotFoundError ->
  exists args captured log_command target,
    op = OpRun args captured log_command target
    /\ os E (count_execs (events w)) (lit "jira" :: args) = NotFound.
Proof.
  intros H.
  destruct op; unfold perform in H; apply fst_forget in H.
  - exists args, capture_output, log_command, stdout_target.
    split; [reflexivity|].
    destruct (run_outcome E args capture_output log_command stdout_target w)
      as [Hos | ob eb rc out err -> Hos Hout Herr | ob eb rc -> Hos Hbad
          | ob eb rc -> Hos]; cbn [fst] in H; try discriminate.
    exact Hos.
  - exfalso. exact (contains_check_configuration E w H).
  - exfalso. exact (contains_check_configuration E w H).
  - exfalso. exact (contains_action_show_help w H).
  - exfalso. exact (contains_action_my_issues E w H).
  - exfalso. exact (contains_run_action E a w H).
  - exfalso. exact (contains_show_message p message w H).
  - exfalso. exact (contains_show_error p message w H).
  - exfalso. exact (contains_display_output p output w H).
Qed.

Lemma missing_binary_is_contained_witness :
  let E := env_const NotFound PressCancel in
  exists args captured log_command target,
    OpRun [lit "me"] true true None = OpRun args captured log_command target
    /\ os E (count_execs (events initial_world)) (lit "jira" :: args) = NotFound.
Proof.
  intros E.
  assert (H : fst (perform E (OpRun [lit "me"] true true None) initial_world)
              = Some FileNotFoundError) by (vm_compute; reflexivity).
  exact (missing_binary_is_contained E _ _ H).
Defined.

(** ** The actions, run to the end *)

Section Actions.

Variable E : Env.

Lemma run_or_return_eq (run : M CommandResult) (w : World) :
  run_or_return run w
  = match run w with
    | (Return r, w') => (Return (Some r), w')
    | (Raise FileNotFoundError, w') => (Return None, w')
    | (Raise UnicodeDecodeError, w') => (Raise UnicodeDecodeError, w')
    end.
Proof.
  unfold run_or_return, try_except_FileNotFoundError, bind.
  destruct (run w) as [[r|[|]] w']; reflexivity.
Qed.

Lemma action_my_issues_eq (w : World) :
  action_my_issues E w
  = match _run_jira_command E my_issues_args true true (Some IssueListPanel)
            (shown IssueListPanel (lit "Loading issues assigned to you…") w) with
    | (Return r, w') =>
        (Return tt,
         if ok r && negb (truthy (stdout r))
         then shown IssueListPanel (lit "No issues assigned to you.") w'
         else w')
    | (Raise FileNotFoundError, w') => (Return tt, w')
    | (Raise UnicodeDecodeError, w') => (Raise UnicodeDecodeError, w')
    end.
Proof.
  unfold action_my_issues. unfold bind at 1. rewrite show_message_eq.
  unfold bind at 1. rewrite run_or_return_eq. fold my_issues_args.
  destruct (_run_jira_command E my_issues_args true true (Some IssueListPanel) _)
    as [[r|[|]] w']; try reflexivity.
  destruct (ok r && negb (truthy (stdout r))); [|reflexivity].
  rewrite show_message_eq. reflexivity.
Qed.

Lemma count_execs_shown (p : PanelId) (m : str) (w : World) :
  count_execs (events (shown p m w)) = count_execs (events w).
Proof. rewrite events_shown. count_execs_zero. Qed.

Lemma count_execs_recorded_prompt (t q ph : str) (w : World) :
  count_execs (events (recorded [EvPrompt t q ph] w)) = count_execs (events w).
Proof. rewrite events_recorded. count_execs_zero. Qed.

End Actions.

Lemma loading_issues_lines :
  or_lines (splitlines (lit "Loading issues assigned to you…")) [[]]
  = [lit "Loading issues assigned to you…"].
Proof. vm_compute. reflexivity. Qed.

Lemma no_issues_lines :
  or_lines (splitlines (lit "No issues assigned to you.")) [[]]
  = [lit "No issues assigned to you."].
Proof. vm_compute. reflexivity. Qed.

Lemma missing_binary_error_lines :
  or_lines (splitlines (lit "Error: " ++ missing_binary_message)) [[]]
  = [lit "Error: " ++ missing_binary_message].
Proof. vm_compute. reflexivity. Qed.


Section LoggedRuns.

Variable E : Env.

(** A captured run inside [try ... except FileNotFoundError: return], by
    what the launch yields. *)
Lemma guarded_run_eq
    (args : list str) (target : option PanelId) (w : World) :
  run_or_return (_run_jira_command E args true true target) w
  = match os E (count_execs (events w)) (lit "jira" :: args) with
    | NotFound =>
        (Return None,
         after_missing_binary (lit "jira" :: args) true true target w)
    | Exited ob eb rc =>
        match decode ob, decode eb with
        | Some out, Some err =>
            (Return (Some (mkCommandResult (lit "jira" :: args)
                                           (strip out) (strip err) rc)),
             after_captured_run (lit "jira" :: args) true target
                                (strip out) (strip err) rc w)
        | _, _ =>
            (Raise UnicodeDecodeError,
             after_decode_error (lit "jira" :: args) true w)
        end
    end.
Proof.
  rewrite run_or_return_eq.
  destruct (os E (count_execs (events w)) (lit "jira" :: args))
    as [|ob eb rc] eqn:Hos.
  - rewrite (run_missing_binary E _ _ _ _ _ Hos). reflexivity.
  - destruct (decode ob) as [out|] eqn:Hout;
      [destruct (decode eb) as [err|] eqn:Herr|].
    + rewrite (run_captured E _ _ _ _ _ _ _ _ _ Hos Hout Herr). reflexivity.
    + rewrite (run_captured_bad_stderr E _ _ _ _ _ _ _ _ Hos Hout Herr).
      reflexivity.
    + rewrite (run_captured_bad_stdout E _ _ _ _ _ _ _ Hos Hout).
      reflexivity.
Qed.

Lemma count_execs_guarded_run
    (args : list str) (target : option PanelId) (w : World) :
  In (EvExec (lit "jira" :: args) true)
     (events (snd (run_or_return (_run_jira_command E args true true target) w)))
  /\ count_execs
       (events (snd (run_or_return (_run_jira_command E args true true target) w)))
     = S (count_execs (events w)).
Proof.
  rewrite run_or_return_eq.
  destruct (run_events_shape E args true true target w) as (rest & Hev & _ & Hc).
  destruct (_run_jira_command E args true true target w) as [[r|[|]] w'];
    cbn [snd] in *; (split; [|exact Hc]);
    rewrite Hev; apply in_or_app; right; apply in_or_app; right;
    left; reflexivity.
Qed.

End LoggedRuns.

Lemma or_lines_clean (s : str) :
  s <> [] -> starts_clean s -> or_lines (splitlines s) [[]] = splitlines s.
Proof.
  intros Hne Hc. pose proof (splitlines_clean_nonempty _ Hne Hc) as H.
  destruct (splitlines s); [congruence | reflexivity].
Qed.

Lemma loading_issue_lines (key : str) :
  or_lines (splitlines (lit "Loading issue " ++ key ++ lit "…")) [[]]
  = splitlines (lit "Loading issue " ++ key ++ lit "…").
Proof.
  destruct (lit "Loading issue ") as [|c l] eqn:Hl; vm_compute in Hl;
    [discriminate|]. injection Hl as <- _.
  apply or_lines_clean; [discriminate | reflexivity].
Qed.

Lemma action_view_issue_eq (E : Env) (w : World) (key : str) :
  answer E w 0 = Some key ->
  action_view_issue E w
  = match run_or_return
            (_run_jira_command E (view_args key) true true (Some IssueDetailPanel))
            (shown IssueDetailPanel (lit "Loading issue " ++ key ++ lit "…")
               (recorded [EvPrompt (lit "View Issue") (lit "Enter issue key")
                                   (lit "ABC-123")] w)) with
    | (Return _, w') => (Return tt, w')
    | (Raise e, w') => (Raise e, w')
    end.
Proof.
  intros Hkey. unfold action_view_issue.
  unfold bind at 1. rewrite _prompt_eq, Hkey.
  pose proof (InputDialog_result_nonempty _ _ Hkey) as Hne.
  destruct key as [|c key]; [congruence|].
  unfold bind at 1. rewrite show_message_eq.
  unfold bind at 1. fold (view_args (c :: key)).
  destruct (run_or_return _ _) as [[r|e] w']; reflexivity.
Qed.



Section LogOnlyActions.

Variable E : Env.

Lemma action_search_eq (w : World) (query : str) :
  answer E w 0 = Some query ->
  action_search E w
  = match run_or_return
            (_run_jira_command E (search_args query) true true None)
            (recorded [EvPrompt (lit "JQL Search") (lit "Enter a JQL query")
                                (lit "project = KEY ORDER BY updated DESC")] w)
    with
    | (Return _, w') => (Return tt, w')
    | (Raise e, w') => (Raise e, w')
    end.
Proof.
  intros Hq. unfold action_search.
  unfold bind at 1. rewrite _prompt_eq, Hq.
  pose proof (InputDialog_result_nonempty _ _ Hq) as Hne.
  destruct query as [|c query]; [congruence|].
  unfold bind at 1. fold (search_args (c :: query)).
  destruct (run_or_return _ _) as [[r|e] w']; reflexivity.
Qed.

(** The tail shared by [action_comment_issue] and
    [action_transition_issue]: run, then confirm on success. *)
Lemma confirm_eq (args : list str) (confirmation : str) (w : World) :
  (r <- run_or_return (_run_jira_command E args true true None) ;;
   match r with
   | None => ret tt
   | Some result => if ok result then _log confirmation else ret tt
   end) w
  = match run_or_return (_run_jira_command E args true true None) w with
    | (Return (Some result), w') =>
        (Return tt,
         if ok result then logged (splitlines confirmation) w' else w')
    | (Return None, w') => (Return tt, w')
    | (Raise e, w') => (Raise e, w')
    end.
Proof.
  unfold bind.
  destruct (run_or_return _ w) as [[[r|]|e] w']; try reflexivity.
  destruct (ok r); [apply _log_eq | reflexivity].
Qed.

Lemma action_comment_issue_eq (w : World) (key comment : str) :
  answer E w 0 = Some key ->
  answer E w 1 = Some comment ->
  action_comment_issue E w
  = match run_or_return
            (_run_jira_command E (comment_args key comment) true true None)
            (recorded (prompt_chain CommentIssue) w) with
    | (Return (Some result), w') =>
        (Return tt,
         if ok result
         then logged (splitlines (lit "Comment added to " ++ key ++ lit ".")) w'
         else w')
    | (Return None, w') => (Return tt, w')
    | (Raise e, w') => (Raise e, w')
    end.
Proof.
  intros Hkey Hbody. unfold action_comment_issue.
  unfold bind at 1. rewrite _prompt_eq, Hkey.
  pose proof (InputDialog_result_nonempty _ _ Hkey) as Hne.
  destruct key as [|c key]; [congruence|].
  unfold bind at 1. rewrite _prompt_eq, answer_after_prompt, Hbody.
  pose proof (InputDialog_result_nonempty _ _ Hbody) as Hne'.
  destruct comment as [|d comment]; [congruence|].
  rewrite recorded_recorded.
  fold (comment_args (c :: key) (d :: comment)).
  apply (confirm_eq (comment_args (c :: key) (d :: comment))).
Qed.

Lemma action_transition_issue_eq (w : World) (key state : str) :
  answer E w 0 = Some key ->
  answer E w 1 = Some state ->
  action_transition_issue E w
  = match run_or_return
            (_run_jira_command E (transition_args key state) true true None)
            (recorded (prompt_chain TransitionIssue) w) with
    | (Return (Some result), w') =>
        (Return tt,
         if ok result
         then logged (splitlines (lit "Transitioned " ++ key ++ lit " to "
                                    ++ state ++ lit ".")) w'
         else w')
    | (Return None, w') => (Return tt, w')
    | (Raise e, w') => (Raise e, w')
    end.
Proof.
  intros Hkey Hstate. unfold action_transition_issue.
  unfold bind at 1. rewrite _prompt_eq, Hkey.
  pose proof (InputDialog_result_nonempty _ _ Hkey) as Hne.
  destruct key as [|c key]; [congruence|].
  unfold bind at 1. rewrite _prompt_eq, answer_after_prompt, Hstate.
  pose proof (InputDialog_result_nonempty _ _ Hstate) as Hne'.
  destruct state as [|d state]; [congruence|].
  rewrite recorded_recorded.
  fold (transition_args (c :: key) (d :: state)).
  apply (confirm_eq (transition_args (c :: key) (d :: state))).
Qed.

Lemma count_execs_recorded_chain (a : PromptedAction) (w : World) :
  count_execs (events (recorded (prompt_chain a) w)) = count_execs (events w).
Proof.
  rewrite events_recorded. destruct a; unfold prompt_chain; count_execs_zero.
Qed.

End LogOnlyActions.

(** The log and the panels after a guarded captured run without target. *)
Lemma guarded_run_log (E : Env) (args : list str) (w : World) :
  let res := run_or_return (_run_jira_command E args true true None) w in
  let cmd := lit "jira" :: args in
  let echo := splitlines (echo_line cmd) in
  issue_list (snd res) = issue_list w
  /\ issue_detail (snd res) = issue_detail w
  /\ match os E (count_execs (events w)) cmd with
     | NotFound =>
         fst res = Return None
         /\ log_lines (snd res) = log_lines w ++ echo ++ [missing_binary_message]
     | Exited ob eb rc =>
         match decode ob, decode eb with
         | Some out, Some err =>
             fst res = Return (Some (mkCommandResult cmd (strip out) (strip err) rc))
             /\ log_lines (snd res)
                = log_lines w ++ echo ++ splitlines (strip out)
                    ++ splitlines (strip err)
                    ++ (if (rc =? 0)%Z then []
                        else splitlines (failure_message cmd rc))
         | _, _ =>
             fst res = Raise UnicodeDecodeError
             /\ log_lines (snd res) = log_lines w ++ echo
         end
     end.
Proof.
  intros res cmd echo. subst res cmd echo.
  split; [|split].
  - rewrite run_or_return_eq.
    destruct (run_frame E args true true None w) as (_ & _ & Hl & _).
    destruct (_run_jira_command E args true true None w) as [[r|[|]] w'];
      exact Hl.
  - rewrite run_or_return_eq.
    destruct (run_frame E args true true None w) as (_ & _ & _ & Hd).
    destruct (_run_jira_command E args true true None w) as [[r|[|]] w'];
      exact Hd.
  - rewrite guarded_run_eq.
    destruct (os E (count_execs (events w)) (lit "jira" :: args)) as [|ob eb rc].
    + split; [reflexivity|]. unfold after_missing_binary, reported. fields.
      rewrite splitlines_missing_binary_message. reflexivity.
    + destruct (decode ob) as [out|]; [destruct (decode eb) as [err|]|];
        (split; [reflexivity|]);
        unfold after_captured_run, after_decode_error, reported;
        try (fields; reflexivity).
      destruct (rc =? 0)%Z; fields; rewrite ?app_nil_r; reflexivity.
Qed.

(** X10. [action_search] with a query from the dialog launches
    [jira issue list --jql <query> --plain] once, the query being one
    argument whatever it contains, and sends everything to the activity log:
    neither panel is written, however the run ends. The log gains the echo,
    then the diagnostic if the executable is missing, or the lines of the
    trimmed output and of the trimmed error output followed, for a non-zero
    exit code, by the failure message. *)
Theorem search_goes_to_the_log (E : Env) (w : World) (query : str) :
  answer E w 0 = Some query ->
  let final := action_search E w in
  let cmd := [lit "jira"; lit "issue"; lit "list"; lit "--jql"; query;
              lit "--plain"] in
  let echo := splitlines (echo_line cmd) in
  issue_list (snd final) = issue_list w
  /\ issue_detail (snd final) = issue_detail w
  /\ In (EvExec cmd true) (events (snd final))
  /\ count_execs (events (snd final)) = S (count_execs (events w))
  /\ match os E (count_execs (events w)) cmd with
     | NotFound =>
         fst final = Return tt
         /\ log_lines (snd final) = log_lines w ++ echo ++ [missing_binary_message]
     | Exited ob eb rc =>
         match decode ob, decode eb with
         | Some out, Some err =>
             fst final = Return tt
             /\ log_lines (snd final)
                = log_lines w ++ echo ++ splitlines (strip out)
                    ++ splitlines (strip err)
                    ++ (if (rc =? 0)%Z then []
                        else splitlines (failure_message cmd rc))
         | _, _ =>
             fst final = Raise UnicodeDecodeError
             /\ log_lines (snd final) = log_lines w ++ echo
         end
     end.
Proof.
  intros Hq final cmd echo. subst final cmd echo.
  rewrite (action_search_eq E w query Hq).
  set (w0 := recorded [EvPrompt (lit "JQL Search") (lit "Enter a JQL query")
                                (lit "project = KEY ORDER BY updated DESC")] w).
  assert (Hn : count_execs (events w0) = count_execs (events w))
    by apply count_execs_recorded_prompt.
  change [lit "jira"; lit "issue"; lit "list"; lit "--jql"; query; lit "--plain"]
    with (lit "jira" :: search_args query).
  destruct (guarded_run_log E (search_args query) w0) as (Hl & Hd & Hcase).
  destruct (count_execs_guarded_run E (search_args query) None w0) as (Hin & Hc).
  rewrite Hn in Hcase, Hc.
  destruct (run_or_return _ w0) as [[r|e] w']; cbn [fst snd] in *;
    (split; [exact Hl|]); (split; [exact Hd|]); (split; [exact Hin|]);
    (split; [exact Hc|]); revert Hcase;
    (destruct (os E (count_execs (events w)) (lit "jira" :: search_args query))
       as [|ob eb rc];
     [|destruct (decode ob) as [out|]; [destruct (decode eb) as [err|]|]]);
    intros (Hf & Hlog); try discriminate Hf;
    (split; [try reflexivity; injection Hf as ->; reflexivity | exact Hlog]).
Qed.

Lemma search_goes_to_the_log_witness :
  let E := env_const (Exited (bytes_lit "KEY-1 Fix it
") [] 0)
                     (PressSubmit (lit "project = KEY")) in
  log_lines (snd (action_search E initial_world))
  = [lit "$ jira issue list --jql project = KEY --plain"; lit "KEY-1 Fix it"].
Proof.
  intros E.
  assert (Hq : answer E initial_world 0 = Some (lit "project = KEY"))
    by (vm_compute; reflexivity).
  destruct (search_goes_to_the_log E initial_world (lit "project = KEY") Hq)
    as (_ & _ & _ & _ & H).
  change (os E (count_execs (events initial_world))
             [lit "jira"; lit "issue"; lit "list"; lit "--jql";
              lit "project = KEY"; lit "--plain"])
    with (Exited (bytes_lit "KEY-1 Fix it
") [] 0) in H.
  assert (Hd : decode (bytes_lit "KEY-1 Fix it
") = Some (lit "KEY-1 Fix it
")) by (vm_compute; reflexivity).
  cbv beta iota in H. rewrite Hd in H. change (decode []) with (Some (@nil char)) in H.
  destruct H as (_ & H). rewrite H. vm_compute. reflexivity.
Defined.

(** A guarded run without target followed by a confirmation on success. *)
Lemma confirming_run_log
    (E : Env) (args : list str) (confirmation : str) (w : World) :
  let final :=
    match run_or_return (_run_jira_command E args true true None) w with
    | (Return (Some result), w') =>
        (Return tt,
         if ok result then logged (splitlines confirmation) w' else w')
    | (Return None, w') => (Return tt, w')
    | (Raise e, w') => (Raise e, w')
    end in
  let cmd := lit "jira" :: args in
  let echo := splitlines (echo_line cmd) in
  issue_list (snd final) = issue_list w
  /\ issue_detail (snd final) = issue_detail w
  /\ In (EvExec cmd true) (events (snd final))
  /\ count_execs (events (snd final)) = S (count_execs (events w))
  /\ match os E (count_execs (events w)) cmd with
     | NotFound =>
         fst final = Return tt
         /\ log_lines (snd final) = log_lines w ++ echo ++ [missing_binary_message]
     | Exited ob eb rc =>
         match decode ob, decode eb with
         | Some out, Some err =>
             fst final = Return tt
             /\ log_lines (snd final)
                = log_lines w ++ echo ++ splitlines (strip out)
                    ++ splitlines (strip err)
                    ++ (if (rc =? 0)%Z then splitlines confirmation
                        else splitlines (failure_message cmd rc))
         | _, _ =>
             fst final = Raise UnicodeDecodeError
             /\ log_lines (snd final) = log_lines w ++ echo
         end
     end.
Proof.
  intros final cmd echo. subst final cmd echo.
  destruct (guarded_run_log E args w) as (Hl & Hd & Hcase).
  destruct (count_execs_guarded_run E args None w) as (Hin & Hc).
  destruct (run_or_return _ w) as [[[r|]|e] w']; cbn [fst snd] in *.
  - revert Hcase.
    destruct (os E (count_execs (events w)) (lit "jira" :: args)) as [|ob eb rc];
      [|destruct (decode ob) as [out|]; [destruct (decode eb) as [err|]|]];
      intros (Hf & Hlog); try discriminate Hf.
    injection Hf as ->. unfold ok. cbn [returncode].
    destruct (rc =? 0)%Z.
    + split; [exact Hl|]. split; [exact Hd|]. split.
      { rewrite events_logged. apply in_or_app. left. exact Hin. }
      split.
      { rewrite events_logged, count_execs_app, count_execs_log. lia. }
      split; [reflexivity|].
      rewrite log_lines_logged, Hlog, app_nil_r, <- !app_assoc. reflexivity.
    + repeat (split; [assumption|]). split; [reflexivity | exact Hlog].
  - repeat (split; [assumption|]). revert Hcase.
    destruct (os E (count_execs (events w)) (lit "jira" :: args)) as [|ob eb rc];
      [|destruct (decode ob) as [out|]; [destruct (decode eb) as [err|]|]];
      intros (Hf & Hlog); try discriminate Hf.
    split; [reflexivity | exact Hlog].
  - repeat (split; [assumption|]). revert Hcase.
    destruct (os E (count_execs (events w)) (lit "jira" :: args)) as [|ob eb rc];
      [|destruct (decode ob) as [out|]; [destruct (decode eb) as [err|]|]];
      intros (Hf & Hlog); try discriminate Hf;
      (split; [injection Hf as ->; reflexivity | exact Hlog]).
Qed.

(** X11. [action_comment_issue] with a key and a body from its two dialogs
    launches [jira issue comment add <key> --comment <body>] once, the body
    being one argument, and writes to no panel. The log gains the echo and
    then: the diagnostic if the executable is missing; otherwise the lines of
    the trimmed output and error output, followed by [Comment added to
    <key>.] when the exit code is 0 and by the failure message, without any
    confirmation, when it is not. *)
Theorem comment_is_confirmed_on_success
    (E : Env) (w : World) (key comment : str) :
  answer E w 0 = Some key ->
  answer E w 1 = Some comment ->
  let final := action_comment_issue E w in
  let cmd := [lit "jira"; lit "issue"; lit "comment"; lit "add"; key;
              lit "--comment"; comment] in
  let echo := splitlines (echo_line cmd) in
  issue_list (snd final) = issue_list w
  /\ issue_detail (snd final) = issue_detail w
  /\ In (EvExec cmd true) (events (snd final))
  /\ count_execs (events (snd final)) = S (count_execs (events w))
  /\ match os E (count_execs (events w)) cmd with
     | NotFound =>
         fst final = Return tt
         /\ log_lines (snd final) = log_lines w ++ echo ++ [missing_binary_message]
     | Exited ob eb rc =>
         match decode ob, decode eb with
         | Some out, Some err =>
             fst final = Return tt
             /\ log_lines (snd final)
                = log_lines w ++ echo ++ splitlines (strip out)
                    ++ splitlines (strip err)
                    ++ (if (rc =? 0)%Z
                        then splitlines (lit "Comment added to " ++ key ++ lit ".")
                        else splitlines (failure_message cmd rc))
         | _, _ =>
             fst final = Raise UnicodeDecodeError
             /\ log_lines (snd final) = log_lines w ++ echo
         end
     end.
Proof.
  intros Hkey Hbody final cmd echo. subst final cmd echo.
  rewrite (action_comment_issue_eq E w key comment Hkey Hbody).
  change [lit "jira"; lit "issue"; lit "comment"; lit "add"; key;
          lit "--comment"; comment]
    with (lit "jira" :: comment_args key comment).
  pose proof (confirming_run_log E (comment_args key comment)
                (lit "Comment added to " ++ key ++ lit ".")
                (recorded (prompt_chain CommentIssue) w)) as H.
  cbv zeta in H.
  rewrite (count_execs_recorded_chain CommentIssue w) in H.
  exact H.
Qed.

Lemma comment_is_confirmed_on_success_witness :
  let E := mkEnv (fun _ _ => Exited [] [] 0)
                 (fun n => match n with
                           | O => PressSubmit (lit "AB-1")
                           | S _ => PressEnter (lit " looks good ")
                           end) in
  log_lines (snd (action_comment_issue E initial_world))
  = [lit "$ jira issue comment add AB-1 --comment looks good";
     lit "Comment added to AB-1."].
Proof.
  intros E.
  assert (Hkey : answer E initial_world 0 = Some (lit "AB-1"))
    by (vm_compute; reflexivity).
  assert (Hbody : answer E initial_world 1 = Some (lit "looks good"))
    by (vm_compute; reflexivity).
  destruct (comment_is_confirmed_on_success E initial_world _ _ Hkey Hbody)
    as (_ & _ & _ & _ & H).
  change (os E (count_execs (events initial_world))
             [lit "jira"; lit "issue"; lit "comment"; lit "add"; lit "AB-1";
              lit "--comment"; lit "looks good"])
    with (Exited [] [] 0) in H.
  cbv beta iota in H. change (decode []) with (Some (@nil char)) in H.
  destruct H as (_ & H). rewrite H. vm_compute. reflexivity.
Defined.

(** X12. [action_transition_issue] with a key and a state from its two
    dialogs launches [jira issue transition <key> --state <state>] once and
    writes to no panel. The log gains the echo and then: the diagnostic if
    the executable is missing; otherwise the lines of the trimmed output and
    error output, followed by [Transitioned <key> to <state>.] when the exit
    code is 0 and by the failure message, without any confirmation, when it
    is not. *)
Theorem transition_is_confirmed_on_success
    (E : Env) (w : World) (key state : str) :
  answer E w 0 = Some key ->
  answer E w 1 = Some state ->
  let final := action_transition_issue E w in
  let cmd := [lit "jira"; lit "issue"; lit "transition"; key;
              lit "--state"; state] in
  let echo := splitlines (echo_line cmd) in
  issue_list (snd final) = issue_list w
  /\ issue_detail (snd final) = issue_detail w
  /\ In (EvExec cmd true) (events (snd final))
  /\ count_execs (events (snd final)) = S (count_execs (events w))
  /\ match os E (count_execs (events w)) cmd with
     | NotFound =>
         fst final = Return tt
         /\ log_lines (snd final) = log_lines w ++ echo ++ [missing_binary_message]
     | Exited ob eb rc =>
         match decode ob, decode eb with
         | Some out, Some err =>
             fst final = Return tt
             /\ log_lines (snd final)
                = log_lines w ++ echo ++ splitlines (strip out)
                    ++ splitlines (strip err)
                    ++ (if (rc =? 0)%Z
                        then splitlines (lit "Transitioned " ++ key ++ lit " to "
                                           ++ state ++ lit ".")
                        else splitlines (failure_message cmd rc))
         | _, _ =>
             fst final = Raise UnicodeDecodeError
             /\ log_lines (snd final) = log_lines w ++ echo
         end
     end.
Proof.
  intros Hkey Hstate final cmd echo. subst final cmd echo.
  rewrite (action_transition_issue_eq E w key state Hkey Hstate).
  change [lit "jira"; lit "issue"; lit "transition"; key; lit "--state"; state]
    with (lit "jira" :: transition_args key state).
  pose proof (confirming_run_log E (transition_args key state)
                (lit "Transitioned " ++ key ++ lit " to " ++ state ++ lit ".")
                (recorded (prompt_chain TransitionIssue) w)) as H.
  cbv zeta in H.
  rewrite (count_execs_recorded_chain TransitionIssue w) in H.
  exact H.
Qed.

Lemma transition_is_confirmed_on_success_witness :
  let E := mkEnv (fun _ _ => Exited [] (bytes_lit "no such state") 1)
                 (fun n => match n with
                           | O => PressSubmit (lit "AB-1")
                           | S _ => PressSubmit (lit "Done")
                           end) in
  log_lines (snd (action_transition_issue E initial_world))
  = [lit "$ jira issue transition AB-1 --state Done";
     lit "no such state";
     lit "Command 'jira issue transition AB-1 --state Done' exited with code 1"].
Proof.
  intros E.
  assert (Hkey : answer E initial_world 0 = Some (lit "AB-1"))
    by (vm_compute; reflexivity).
  assert (Hstate : answer E initial_world 1 = Some (lit "Done"))
    by (vm_compute; reflexivity).
  destruct (transition_is_confirmed_on_success E initial_world _ _ Hkey Hstate)
    as (_ & _ & _ & _ & H).
  change (os E (count_execs (events initial_world))
             [lit "jira"; lit "issue"; lit "transition"; lit "AB-1";
              lit "--state"; lit "Done"])
    with (Exited [] (bytes_lit "no such state") 1) in H.
  cbv beta iota in H. change (decode []) with (Some (@nil char)) in H.
  assert (Hd : decode (bytes_lit "no such state") = Some (lit "no such state"))
    by (vm_compute; reflexivity).
  rewrite Hd in H.
  destruct H as (_ & H). rewrite H. vm_compute. reflexivity.
Defined.

(** ** The probe's state *)

Lemma status_texts_distinct :
  status_authenticated <> status_checking
  /\ status_not_installed <> status_checking
  /\ status_missing <> status_checking
  /\ status_not_installed <> status_authenticated
  /\ status_missing <> status_authenticated.
Proof. repeat split; intros H; vm_compute in H; discriminate H. Qed.

(** X13. Whenever [check_configuration] returns, the state it leaves does
    not depend on the state it found: the status is one of the three final
    texts, never the checking text; [configured] is true exactly when the
    status is the authenticated text, and exactly when the process of the
    probe ended with exit code 0. Exactly one process is launched and no
    panel is written. *)
Theorem check_configuration_state_is_consistent (E : Env) (w : World) :
  let final := check_configuration E w in
  fst final = Return tt ->
  status (snd final) <> status_checking
  /\ (configured (snd final) = true <-> status (snd final) = status_authenticated)
  /\ (configured (snd final) = true <->
      exists ob eb,
        os E (count_execs (events w)) [lit "jira"; lit "me"] = Exited ob eb 0)
  /\ count_execs (events (snd final)) = S (count_execs (events w))
  /\ issue_list (snd final) = issue_list w
  /\ issue_detail (snd final) = issue_detail w.
Proof.
  intros final Hret. subst final. revert Hret.
  rewrite check_configuration_eq.
  set (w1 := with_status status_checking w).
  assert (Hn : count_execs (events w1) = count_execs (events w))
    by apply count_execs_with_status.
  destruct status_texts_distinct as (Ha & Hi & Hm & Hia & Hma).
  destruct (run_frame E [lit "me"] true true None w1) as (_ & _ & Hl & Hd).
  destruct (run_events_shape E [lit "me"] true true None w1) as (rest & _ & _ & Hc).
  rewrite Hn in Hc.
  destruct (run_outcome E [lit "me"] true true None w1)
    as [Hos | ob eb rc out err _ Hos Hout Herr | ob eb rc _ Hos Hbad
        | ob eb rc Hcap Hos]; try discriminate Hcap;
    rewrite Hn in Hos;
    change (lit "jira" :: [lit "me"]) with [lit "jira"; lit "me"] in *;
    cbn [fst snd] in *; intros Hret; try discriminate Hret.
  - split; [exact Hi|]. split; [split; intros H; [discriminate H|]|].
    { exfalso. apply Hia. exact H. }
    split; [split; [intros H; discriminate H|]|].
    { intros (ob & eb & H). rewrite Hos in H. discriminate H. }
    split; [|split; assumption].
    rewrite events_logged, count_execs_app, count_execs_log.
    cbn [events with_status with_configured].
    rewrite !count_execs_app, !count_execs_cons, count_execs_nil. lia.
  - cbn [returncode stdout stderr].
    destruct (rc =? 0)%Z eqn:Hrc.
    + apply Z.eqb_eq in Hrc. subst rc.
      split; [exact Ha|]. split; [split; reflexivity|].
      split; [split; [intros _; exists ob, eb; exact Hos | reflexivity]|].
      split; [|split; assumption].
      rewrite events_logged, count_execs_app, count_execs_log.
      cbn [events with_status with_configured].
      rewrite !count_execs_app, !count_execs_cons, count_execs_nil. lia.
    + split; [exact Hm|]. split; [split; intros H; [discriminate H|]|].
      { exfalso. apply Hma. exact H. }
      split; [split; [intros H; discriminate H|]|].
      { intros (ob' & eb' & H). rewrite Hos in H. injection H as _ _ ->.
        discriminate Hrc. }
      split; [|split; assumption].
      rewrite events_logged, count_execs_app, count_execs_log.
      cbn [events with_status with_configured].
      rewrite !count_execs_app, !count_execs_cons, count_execs_nil. lia.
Qed.

(** A second probe after the configuration has been lost. *)
Lemma check_configuration_state_is_consistent_witness :
  let E := env_const (Exited [] (bytes_lit "not logged in") 1) PressCancel in
  let w := snd (check_configuration
                  (env_const (Exited (bytes_lit "Authenticated") [] 0) PressCancel)
                  initial_world) in
  configured w = true
  /\ status (snd (check_configuration E w)) <> status_checking
  /\ (configured (snd (check_configuration E w)) = true <->
      status (snd (check_configuration E w)) = status_authenticated).
Proof.
  intros E w. split; [reflexivity|].
  assert (Hret : fst (check_configuration E w) = Return tt)
    by (vm_compute; reflexivity).
  destruct (check_configuration_state_is_consistent E w Hret) as (H1 & H2 & _).
  split; [exact H1 | exact H2].
Defined.

(** ** The dialog's value *)

(** X14. A value that comes out of the dialog is never empty and has no
    whitespace at either end, and it is stable: typed again into the dialog,
    through either gesture, it yields itself. *)
Theorem dialog_value_is_normal (g : Gesture) (s : str) :
  InputDialog_result g = Some s ->
  s <> []
  /\ starts_clean s /\ starts_clean (rev s)
  /\ InputDialog_result (PressSubmit s) = Some s
  /\ InputDialog_result (PressEnter s) = Some s.
Proof.
  intros H.
  assert (Hs : exists v, s = strip v /\ truthy (strip v) = true).
  { destruct g as [|v|v]; simpl in H; [discriminate| |];
      destruct (truthy (strip v)) eqn:Ht; try discriminate;
      injection H as <-; exists v; split; auto. }
  destruct Hs as (v & -> & Ht).
  split; [destruct (strip v); [discriminate | discriminate]|].
  split; [apply strip_starts_clean|].
  split; [unfold strip, rstrip; rewrite rev_involutive;
          apply lstrip_starts_clean|].
  simpl. rewrite strip_idempotent, Ht. split; reflexivity.
Qed.

Lemma dialog_value_is_normal_witness :
  InputDialog_result (PressSubmit (lit "AB-1")) = Some (lit "AB-1").
Proof.
  assert (H : InputDialog_result (PressEnter (lit "  AB-1 ")) = Some (lit "AB-1"))
    by (vm_compute; reflexivity).
  destruct (dialog_value_is_normal _ _ H) as (_ & _ & _ & Hs & _).
  exact Hs.
Defined.

(** ** Panel methods *)

Section HeadLine.

Lemma splitlines_from_app_clean (prefix cur s : str) :
  no_break prefix = true ->
  splitlines_from cur (prefix ++ s) = splitlines_from (rev prefix ++ cur) s.
Proof.
  revert cur. induction prefix as [|c prefix IH]; intros cur H; simpl.
  - reflexivity.
  - unfold no_break in H. simpl in H. apply negb_true_iff in H.
    apply orb_false_iff in H. destruct H as [Hc Hp]. rewrite Hc.
    rewrite IH by (unfold no_break; rewrite Hp; reflexivity).
    rewrite <- app_assoc. reflexivity.
Qed.

(** The first line of a text is its longest prefix without a line
    boundary. *)
Lemma splitlines_from_head (s cur : str) :
  cur <> [] ->
  exists first tail more,
    s = first ++ tail /\ no_break first = true
    /\ match tail with [] => True | c :: _ => islinebreak c = true end
    /\ splitlines_from cur s = (rev cur ++ first) :: more.
Proof.
  revert cur. induction s as [|c s IH]; intros cur Hcur.
  - exists [], [], []. simpl. rewrite app_nil_r.
    destruct cur; [congruence|]. repeat split; reflexivity.
  - simpl. destruct (islinebreak c) eqn:Hc.
    + exists [], (c :: s). eexists. rewrite app_nil_r.
      repeat split; try reflexivity. exact Hc.
    + destruct (IH (c :: cur)) as (first & tail & more & Hs & Hnb & Ht & Hsp);
        [discriminate|].
      exists (c :: first), tail, more. repeat split.
      * simpl. rewrite Hs. reflexivity.
      * unfold no_break in *. simpl. rewrite Hc. exact Hnb.
      * exact Ht.
      * rewrite Hsp. simpl. rewrite <- app_assoc. reflexivity.
Qed.

End HeadLine.



(** ** Texts built from lines *)

Section Lines.

Lemma splitlines_line (s t : str) :
  no_break s = true -> splitlines (s ++ 10%N :: t) = s :: splitlines t.
Proof.
  intros H. unfold splitlines.
  rewrite (splitlines_from_app_clean s [] _ H). simpl.
  rewrite app_nil_r, rev_involutive. reflexivity.
Qed.

(** Joining lines with a line feed and splitting again gives the lines
    back, provided none holds a line boundary and the last is not empty. *)
Lemma splitlines_join (ls : list str) :
  forallb no_break ls = true ->
  last ls [0%N] <> [] ->
  splitlines (join [10%N] ls) = ls.
Proof.
  induction ls as [|a ls IH]; intros Hnb Hlast.
  - reflexivity.
  - simpl in Hnb. apply andb_prop in Hnb. destruct Hnb as [Ha Hls].
    destruct ls as [|b ls].
    + simpl in Hlast.
      change (join [10%N] [a]) with a.
      rewrite splitlines_single; [reflexivity | exact Hlast|].
      unfold no_break in Ha. apply negb_true_iff in Ha. exact Ha.
    + change (join [10%N] (a :: b :: ls))
        with (a ++ [10%N] ++ join [10%N] (b :: ls)).
      change (a ++ [10%N] ++ join [10%N] (b :: ls))
        with (a ++ 10%N :: join [10%N] (b :: ls)).
      rewrite (splitlines_line _ _ Ha), IH; [reflexivity | exact Hls|].
      exact Hlast.
Qed.

Lemma app_single (c : char) (x : str) : [c] ++ x = c :: x.
Proof. reflexivity. Qed.

End Lines.

(** X17. When Textual has no terminal widget, the placeholder shows three
    lines, the last of which is the command to type: [$ ] followed by the
    command's words joined by single spaces, provided no word holds a line
    boundary. *)
Theorem terminal_fallback_shows_command (command : list str) :
  forallb no_break command = true ->
  splitlines (Terminal_run_command command)
  = [lit "Terminal widget not available.";
     lit "Run the following command manually in your shell:";
     lit "$ " ++ join (lit " ") command].
Proof.
  intros H. unfold Terminal_run_command. cbv zeta.
  rewrite <- !app_assoc, !app_single.
  rewrite splitlines_line by (vm_compute; reflexivity).
  rewrite splitlines_line by (vm_compute; reflexivity).
  rewrite splitlines_single; [reflexivity| |].
  - destruct (lit "$ ") eqn:Hl; [vm_compute in Hl|]; discriminate.
  - assert (Hn : no_break (lit "$ " ++ join (lit " ") command) = true).
    { rewrite no_break_app, no_break_join; [reflexivity | reflexivity | exact H]. }
    unfold no_break in Hn. apply negb_true_iff in Hn. exact Hn.
Qed.

Lemma terminal_fallback_shows_command_witness :
  splitlines (Terminal_run_command [lit "jira"; lit "issue"; lit "create"])
  = [lit "Terminal widget not available.";
     lit "Run the following command manually in your shell:";
     lit "$ jira issue create"].
Proof.
  assert (H : forallb no_break [lit "jira"; lit "issue"; lit "create"] = true)
    by (vm_compute; reflexivity).
  rewrite (terminal_fallback_shows_command _ H). vm_compute. reflexivity.
Defined.

Lemma help_lines :
  splitlines ((lit "Available shortcuts:" ++ [10%N]) ++ join [10%N] help_commands)
  = lit "Available shortcuts:" :: help_commands.
Proof.
  rewrite <- app_assoc, app_single.
  rewrite splitlines_line by (vm_compute; reflexivity).
  rewrite splitlines_join; [reflexivity | vm_compute; reflexivity|].
  vm_compute. discriminate.
Qed.

(** X18. [action_show_help] is local: it returns, launches no process,
    opens no dialog, and leaves the panels, the status and [configured]
    alone. The log gains the heading and one line for each of the nine
    shortcuts of the legend, in the order of the source. *)
Theorem show_help_is_local (w : World) :
  let final := action_show_help w in
  fst final = Return tt
  /\ log_lines (snd final)
     = log_lines w ++ lit "Available shortcuts:" :: help_commands
  /\ events (snd final)
     = events w ++ map EvLogWrite (lit "Available shortcuts:" :: help_commands)
  /\ List.length help_commands = 9
  /\ issue_list (snd final) = issue_list w
  /\ issue_detail (snd final) = issue_detail w
  /\ status (snd final) = status w
  /\ configured (snd final) = configured w.
Proof.
  intros final. subst final. unfold action_show_help. cbv zeta.
  rewrite _log_eq, help_lines. cbn [fst snd].
  repeat split; reflexivity.
Qed.

(** ** Surrounding whitespace *)

Section Surrounding.

Lemma lstrip_app_space (pre s : str) :
  forallb isspace pre = true -> lstrip (pre ++ s) = lstrip s.
Proof.
  induction pre as [|c pre IH]; simpl; [reflexivity|].
  destruct (isspace c); simpl; [exact IH | discriminate].
Qed.

Lemma lstrip_app_kept (s t : str) :
  lstrip s <> [] -> lstrip (s ++ t) = lstrip s ++ t.
Proof.
  induction s as [|c s IH]; simpl; [congruence|].
  destruct (isspace c); [exact IH | reflexivity].
Qed.

Lemma rstrip_app_space (s post : str) :
  forallb isspace post = true -> rstrip (s ++ post) = rstrip s.
Proof.
  intros H. unfold rstrip. rewrite rev_app_distr.
  rewrite lstrip_app_space by (apply forallb_rev, H). reflexivity.
Qed.

(** Whitespace around a text does not survive [strip]. *)
Lemma strip_surrounded (pre s post : str) :
  forallb isspace pre = true -> forallb isspace post = true ->
  strip (pre ++ s ++ post) = strip s.
Proof.
  intros Hpre Hpost. unfold strip. rewrite (lstrip_app_space _ _ Hpre).
  destruct (lstrip s) as [|c t] eqn:Hs.
  - assert (Hall : forallb isspace (s ++ post) = true).
    { rewrite forallb_app, (lstrip_nil_all_space _ Hs), Hpost. reflexivity. }
    rewrite (lstrip_all_space _ Hall). reflexivity.
  - rewrite lstrip_app_kept by (rewrite Hs; discriminate).
    rewrite Hs. apply rstrip_app_space, Hpost.
Qed.

End Surrounding.

(** X19. Whitespace around a text makes no difference to the dialog or to
    [display_output]: a value typed with spaces, tabs or line breaks before
    and after it resolves like the value itself, and an output surrounded
    by them fills the panel like the output itself. *)
Theorem surrounding_whitespace_is_ignored
    (pre s post : str) (p : PanelId) (w : World) :
  forallb isspace pre = true ->
  forallb isspace post = true ->
  InputDialog_result (PressSubmit (pre ++ s ++ post))
  = InputDialog_result (PressSubmit s)
  /\ InputDialog_result (PressEnter (pre ++ s ++ post))
     = InputDialog_result (PressEnter s)
  /\ panel_lines p (snd (display_output p (pre ++ s ++ post) w))
     = panel_lines p (snd (display_output p s w)).
Proof.
  intros Hpre Hpost. simpl InputDialog_result.
  rewrite !display_output_eq. cbn [snd].
  rewrite !panel_lines_displayed, (strip_surrounded _ _ _ Hpre Hpost).
  repeat split; reflexivity.
Qed.

Lemma surrounding_whitespace_is_ignored_witness :
  InputDialog_result (PressSubmit (lit "  " ++ lit "AB-1" ++ [9%N; 10%N]))
  = InputDialog_result (PressSubmit (lit "AB-1")).
Proof.
  assert (Hpre : forallb isspace (lit "  ") = true) by (vm_compute; reflexivity).
  assert (Hpost : forallb isspace [9%N; 10%N] = true) by reflexivity.
  destruct (surrounding_whitespace_is_ignored _ (lit "AB-1") _ IssueListPanel
              initial_world Hpre Hpost) as (H & _).
  exact H.
Defined.
